(** * ptan/samples/dqn_tweaks_atari.py: target construction and training loop

    A shallow embedding of the DQN training script: the batch transform
    [batch_to_train] (n-step Bellman targets with the plain, target-only and
    double bootstrap modes) and the outer training loop with its epsilon
    decay, running sums, target-network synchronisation and the
    [try]/[finally] that closes the environment pool.

    Conventions of the embedding.
    - Python and torch floating-point numbers are modelled by exact
      rationals ([Q]); the sequence of arithmetic operations is the one the
      script performs, only rounding is abstracted away.
    - A network is represented by its forward function on one observation
      ([Net]); evaluating it on a batch is [map].  A two-dimensional tensor
      is a list of rows; [t.max(1)] takes the maximum of every row, with
      the first maximal index, and gives the vector of the per-row
      results.  [squeeze()] leaves a vector of two or more entries as it
      is and turns a vector of one entry into a 0-dimensional array, which
      cannot be indexed.
    - Scalars carry their Python type where the script depends on it: an
      element read from a numpy array is a [numpy.float32], which a
      tensor item assignment refuses with [TypeError]; Python floats are
      accepted.
    - The collaborators of the loop (experience source, random sampling,
      optimizer, reward statistics, run file) are inputs of the model: a
      [World] per iteration and the function [optimizer_step].  The replay
      buffer and [TargetNet.sync], whose code is in other files of the
      package, are modelled from the specification.
    - Exceptions are explicit: a computation returns an [outcome], and the
      stateful parts return the state reached together with the outcome, so
      that side effects performed before a raise are kept.
    - Calls whose occurrence matters to the specification ([env.close()],
      [target_net.sync()], the epsilon decay, one training step) are logged
      in the field [trace] of the state. *)

From Stdlib Require Import QArith Qpower Lia Lqa ZArith.
From stdpp Require Import base list.

(** ** Exceptions *)

Inductive exn : Type :=
| IndexError
| ZeroDivisionError
| RuntimeError
| TypeError
| InsufficientDataError
| EnvironmentFailureError
| EstimatorEvaluationError.

Inductive outcome (A : Type) : Type :=
| Ok (a : A)
| Raise (e : exn).
Arguments Ok {A} a.
Arguments Raise {A} e.

(** The exception monad; [x ← m; k] is stdpp's notation for [mbind]. *)
#[global] Instance outcome_bind : MBind outcome := fun A B k m =>
  match m with
  | Ok a => k a
  | Raise e => Raise e
  end.

#[global] Instance outcome_ret : MRet outcome := fun A a => Ok a.

Fixpoint map_outcome {A B : Type} (f : A -> outcome B) (l : list A) : outcome (list B) :=
  match l with
  | [] => Ok []
  | a :: l' =>
      b ← f a;
      bs ← map_outcome f l';
      Ok (b :: bs)
  end.

(** ** Python and tensor primitives *)

(** line 22 *)
Definition GAMMA : Q := 99 # 100.

(** line 24 *)
Definition REPORT_ITERS : Z := 10.

(** Python's [max(a, b)]: [b] when [b > a], otherwise [a]. *)
Definition py_max (a b : Q) : Q :=
  if Qle_bool b a then a else b.

(** Python's [x / n] for a float [x] and an int [n]. *)
Definition py_div (x : Q) (n : Z) : outcome Q :=
  if (n =? 0)%Z then Raise ZeroDivisionError else Ok (x / inject_Z n)%Q.

(** Python's [a % b] on ints; [Z.modulo] has the sign of the divisor, as
    Python's operator has. *)
Definition py_mod (a b : Z) : outcome Z :=
  if (b =? 0)%Z then Raise ZeroDivisionError else Ok (a mod b)%Z.

(** [l[i]] for a list or a one-dimensional array. *)
Definition getitem {A : Type} (l : list A) (i : nat) : outcome A :=
  match l !! i with
  | Some a => Ok a
  | None => Raise IndexError
  end.

(** [l[i] = v] *)
Definition setitem {A : Type} (l : list A) (i : nat) (v : A) : outcome (list A) :=
  if (i <? length l)%nat then Ok (<[i := v]> l) else Raise IndexError.

(** [t[i][j] = v] on a two-dimensional tensor. *)
Definition setitem2 (t : list (list Q)) (i j : nat) (v : Q) : outcome (list (list Q)) :=
  row ← getitem t i;
  row' ← setitem row j v;
  setitem t i row'.

(** One row of torch's [t.max(1)]: the largest entry and its index.  A
    later entry replaces the current best only when it is strictly larger. *)
Fixpoint row_max_from (best : Q) (besti i : nat) (row : list Q) : Q * nat :=
  match row with
  | [] => (best, besti)
  | x :: xs =>
      if Qle_bool x best then row_max_from best besti (S i) xs
      else row_max_from x i (S i) xs
  end.

Definition row_max (row : list Q) : outcome (Q * nat) :=
  match row with
  | [] => Raise RuntimeError
  | x :: xs => Ok (row_max_from x 0 1 xs)
  end.

Definition Qsum (l : list Q) : Q := fold_right Qplus 0%Q l.

(** [t.mean()] of a two-dimensional tensor: the mean of all its entries. *)
Definition tensor_mean (t : list (list Q)) : Q :=
  (Qsum (concat t) / inject_Z (Z.of_nat (length (concat t))))%Q.

(** A numpy array of bootstrap values: a vector, or the 0-dimensional
    array that [squeeze()] makes of a vector of one element. *)
Inductive ndarray : Type :=
| Array0 (v : Q)
| Array1 (l : list Q).

(** [t.squeeze()] of a vector: every dimension of size 1 is removed.  The
    vector is [t.max(1)[0]], which has one entry per row of [t]: the
    reduced dimension is not kept. *)
Definition squeeze (l : list Q) : ndarray :=
  match l with
  | [v] => Array0 v
  | _ => Array1 l
  end.

(** [a[i]] on an array: a 0-dimensional array has no index. *)
Definition array_getitem (a : ndarray) (i : nat) : outcome Q :=
  match a with
  | Array0 _ => Raise IndexError
  | Array1 l => getitem l i
  end.

(** The Python type of a scalar.  An element taken from a float32 numpy
    array is a [numpy.float32]; the literal [0.0] is a [float], and so is
    the result of arithmetic between a [float] and a [numpy.float32]
    (a [numpy.float64], which is a subclass of [float]). *)
Inductive scalar_type : Type :=
| numpy_float32
| python_float.

(** [t[i][j] = v] on a two-dimensional FloatTensor, for a scalar [v] of
    type [ty]: the row [t[i]] is taken first; the assignment then converts
    the value, which torch does for a Python [float] and refuses for a
    [numpy.float32], before it applies the index. *)
Definition tensor_setitem2 (t : list (list Q)) (i j : nat) (ty : scalar_type) (v : Q)
    : outcome (list (list Q)) :=
  _ ← getitem t i;
  match ty with
  | numpy_float32 => Raise TypeError
  | python_float => setitem2 t i j v
  end.

(** numpy's [qL[range(qL.shape[0]), actions]]. *)
Fixpoint fancy_index (qL : list (list Q)) (actions : list nat) : outcome (list Q) :=
  match qL, actions with
  | row :: qL', a :: actions' =>
      v ← getitem row a;
      vs ← fancy_index qL' actions';
      Ok (v :: vs)
  | [], [] => Ok []
  | _, _ => Raise IndexError
  end.

(** line 180: the number of outer iterations, [range(10000)]. *)
Definition ITERATIONS : nat := Z.to_nat 10000.
#[global] Opaque ITERATIONS.

(** ** Observable calls *)

Inductive event : Type :=
| EvTrain            (* optimizer.step() of one batch *)
| EvDecay            (* action_selector.epsilon *= epsilon_decay *)
| EvSync (idx : Z)   (* target_net.sync() in iteration idx *)
| EvClose (i : nat). (* env_pool[i].close() *)

Section Script.

(** Observations (preprocessed frames) are opaque to the script. *)
Context {Obs : Type}.

(** ** Data *)

(** [experience.Experience]: one transition. *)
Record Experience : Type := mkExperience {
  state : Obs;
  action : nat;
  reward : Q;
  done : bool
}.

(** An experience chain is a list of transitions, a batch a list of
    chains. *)
Local Abbreviation Chain := (list Experience) (only parsing).
Local Abbreviation Batch := (list (list Experience)) (only parsing).

(** The forward function of a network on one observation: one value per
    action. *)
Local Abbreviation Net := (Obs -> list Q) (only parsing).

(** Modelled from the spec: experience.ExperienceReplayBuffer (ptan/experience.py
    is not among the sources).  The store is a bounded, insertion-ordered
    collection of chains; [min_required] is the configured
    minimum-fill-before-sampling. *)
Record ReplayStore : Type := mkReplayStore {
  capacity : nat;
  min_required : nat;
  buffer : list Chain
}.

(** The module-level variables of the script that change during a run. *)
Record State : Type := mkState {
  model : Net;                      (* the online estimator *)
  target_net_model : Net;           (* target_net.target_model *)
  epsilon : Q;                      (* action_selector.epsilon *)
  lr : Q;                           (* the optimizer's learning rate *)
  exp_replay : ReplayStore;
  batches_count : Z;
  batches_sum_q0 : Q;
  batches_sum_total_reward : Q;
  trace : list event
}.

Definition set_model (m : Net) (st : State) : State :=
  mkState m (target_net_model st) (epsilon st) (lr st) (exp_replay st)
    (batches_count st) (batches_sum_q0 st) (batches_sum_total_reward st) (trace st).

Definition set_target_net_model (m : Net) (st : State) : State :=
  mkState (model st) m (epsilon st) (lr st) (exp_replay st)
    (batches_count st) (batches_sum_q0 st) (batches_sum_total_reward st) (trace st).

Definition set_epsilon (e : Q) (st : State) : State :=
  mkState (model st) (target_net_model st) e (lr st) (exp_replay st)
    (batches_count st) (batches_sum_q0 st) (batches_sum_total_reward st) (trace st).

Definition set_lr (l : Q) (st : State) : State :=
  mkState (model st) (target_net_model st) (epsilon st) l (exp_replay st)
    (batches_count st) (batches_sum_q0 st) (batches_sum_total_reward st) (trace st).

Definition set_exp_replay (r : ReplayStore) (st : State) : State :=
  mkState (model st) (target_net_model st) (epsilon st) (lr st) r
    (batches_count st) (batches_sum_q0 st) (batches_sum_total_reward st) (trace st).

Definition set_batches_count (n : Z) (st : State) : State :=
  mkState (model st) (target_net_model st) (epsilon st) (lr st) (exp_replay st)
    n (batches_sum_q0 st) (batches_sum_total_reward st) (trace st).

Definition set_batches_sum_q0 (q : Q) (st : State) : State :=
  mkState (model st) (target_net_model st) (epsilon st) (lr st) (exp_replay st)
    (batches_count st) q (batches_sum_total_reward st) (trace st).

Definition set_batches_sum_total_reward (q : Q) (st : State) : State :=
  mkState (model st) (target_net_model st) (epsilon st) (lr st) (exp_replay st)
    (batches_count st) (batches_sum_q0 st) q (trace st).

Definition log (ev : event) (st : State) : State :=
  mkState (model st) (target_net_model st) (epsilon st) (lr st) (exp_replay st)
    (batches_count st) (batches_sum_q0 st) (batches_sum_total_reward st)
    (trace st ++ [ev]).

(** ** batch_to_train (lines 124-174) *)

(** [exps[0]] *)
Definition first_exp (exps : Chain) : outcome Experience :=
  getitem exps 0.

(** [exps[-1]] *)
Definition last_exp (exps : Chain) : outcome Experience :=
  match last exps with
  | Some e => Ok e
  | None => Raise IndexError
  end.

(** lines 133-135: the first and the last state of every chain. *)
Fixpoint collect_states (batch : Batch) : outcome (list Obs * list Obs) :=
  match batch with
  | [] => Ok ([], [])
  | exps :: rest =>
      e0 ← first_exp exps;
      eL ← last_exp exps;
      '(v0_data, vL_data) ← collect_states rest;
      Ok (state e0 :: v0_data, state eL :: vL_data)
  end.

(** lines 114-117: with the target network disabled, [target_model] is the
    online model itself. *)
Definition target_model (use_target_dqn : bool) (st : State) : Net :=
  if use_target_dqn then target_net_model st else model st.

(** lines 151-162: the bootstrap value of every chain, before the [done]
    override of the backup loop.  These are the entries of the array
    [total_rewards]; its shape is given by [total_rewards_array]. *)
Definition total_rewards_of (use_target_dqn use_double_dqn : bool)
    (st : State) (vL : list Obs) : outcome (list Q) :=
  if use_target_dqn && use_double_dqn then
    actions ← map_outcome (fun s => '(_, a) ← row_max (model st s); Ok a) vL;
    fancy_index (map (target_model use_target_dqn st) vL) actions
  else if use_target_dqn then
    map_outcome (fun s => '(v, _) ← row_max (target_model use_target_dqn st s); Ok v) vL
  else
    map_outcome (fun s => '(v, _) ← row_max (model st s); Ok v) vL.

(** lines 155, 159, 162: the array [total_rewards] that holds the bootstrap
    values.  In the double mode it is the result of the indexing of line
    155, a vector whatever the shape of [actions] (a 0-dimensional
    [actions] is broadcast against [range(1)]).  In the two other modes it
    is the squeezed vector of the row maxima, which is 0-dimensional for a
    batch of one chain. *)
Definition total_rewards_array (use_target_dqn use_double_dqn : bool)
    (values : list Q) : ndarray :=
  if use_target_dqn && use_double_dqn then Array1 values else squeeze values.

(** lines 165-170: the type of the value that [total_reward] holds at line
    171.  It is the array element of line 168 only when the chain is not
    terminal and the loop of line 169 has no transition to run over;
    rewards are Python floats. *)
Definition total_reward_type (exps : Chain) (eL : Experience) : scalar_type :=
  if done eL then python_float
  else match removelast exps with
       | [] => numpy_float32
       | _ :: _ => python_float
       end.

(** lines 169-170: [for exp in reversed(exps[:-1]): total = exp.reward + GAMMA * total] *)
Definition backup (exps : Chain) (seed : Q) : Q :=
  fold_left (fun total_reward exp => (reward exp + GAMMA * total_reward)%Q)
    (rev (removelast exps)) seed.

(** The n-step return as the specification writes it:
    [r1 + γ·(r2 + ... + γ·(rn + γ·V))]. *)
Fixpoint discounted_return_spec (rewards : list Q) (V : Q) : Q :=
  match rewards with
  | [] => V
  | r :: rest => (r + GAMMA * discounted_return_spec rest V)%Q
  end.

(** lines 163-172: the loop over [enumerate(batch)], started at index [idx]. *)
Fixpoint backup_loop (idx : nat) (batch : Batch) (total_rewards : ndarray)
    (q0 : list (list Q)) (sum_total_reward : Q) : outcome (list (list Q) * Q) :=
  match batch with
  | [] => Ok (q0, sum_total_reward)
  | exps :: rest =>
      eL ← last_exp exps;
      seed ← (if done eL then Ok 0%Q else array_getitem total_rewards idx);
      let total_reward := backup exps seed in
      e0 ← first_exp exps;
      q0' ← tensor_setitem2 q0 idx (action e0) (total_reward_type exps eL) total_reward;
      backup_loop (S idx) rest total_rewards q0' (sum_total_reward + total_reward)%Q
  end.

Definition batch_to_train (use_target_dqn use_double_dqn : bool)
    (batch : Batch) (st : State) : outcome (list Obs * list (list Q)) * State :=
  match collect_states batch with
  | Raise e => (Raise e, st)
  | Ok (v0_data, vL_data) =>
      let q0 := map (model st) v0_data in
      let st1 := set_batches_count (batches_count st + 1)%Z st in
      let st2 := set_batches_sum_q0 (batches_sum_q0 st1 + tensor_mean q0)%Q st1 in
      match (values ← total_rewards_of use_target_dqn use_double_dqn st2 vL_data;
             let total_rewards :=
               total_rewards_array use_target_dqn use_double_dqn values in
             backup_loop 0 batch total_rewards q0 0%Q) with
      | Raise e => (Raise e, st2)
      | Ok (q0', sum_total_reward) =>
          match py_div sum_total_reward (Z.of_nat (length batch)) with
          | Raise e => (Raise e, st2)
          | Ok m =>
              (Ok (v0_data, q0'),
               set_batches_sum_total_reward (batches_sum_total_reward st2 + m)%Q st2)
          end
      end
  end.

(** ** The replay store *)

(** Modelled from the spec: ExperienceReplayBuffer insertion.  "Once at
    capacity, each insertion evicts the chronologically oldest surviving
    chain." *)
Definition store_insert (c : Chain) (rs : ReplayStore) : ReplayStore :=
  let b := buffer rs ++ [c] in
  mkReplayStore (capacity rs) (min_required rs) (drop (length b - capacity rs) b).

(** Modelled from the spec: ExperienceReplayBuffer.populate.  "populate(k)
    pulls exactly k newly emitted chains and inserts each into the store";
    [emit j] is the j-th chain the experience source emits during the call. *)
Definition populate (k : nat) (emit : nat -> Chain) (rs : ReplayStore) : ReplayStore :=
  fold_left (fun rs' j => store_insert (emit j) rs') (seq 0 k) rs.

(** Modelled from the spec: ExperienceReplayBuffer.batches.  "A finite
    sequence of batches, each a uniformly-random-with-replacement draw of
    batch_size chains; the number of batches is floor(store_size /
    batch_size).  Fails with InsufficientDataError if sampling is attempted
    before min_required chains are available."  [draws] is the random
    source. *)
Definition sample_batches (batch_size : nat) (draws : nat -> nat)
    (rs : ReplayStore) : outcome (list Batch) :=
  let size := length (buffer rs) in
  if (size <? min_required rs)%nat then Raise InsufficientDataError
  else
    Ok (map (fun j =>
               map (fun i => buffer rs !!! (draws (j * batch_size + i) mod size)%nat)
                   (seq 0 batch_size))
            (seq 0 (size / batch_size))).

(** ** The outer loop (lines 179-255) *)

(** The options of the run file that the loop reads. *)
Record RunFile : Type := mkRunFile {
  exp_buffer_populate : nat;          (* exp_buffer.populate *)
  learning_batch_size : nat;          (* learning.batch_size *)
  epsilon_decay : Q;                  (* defaults.epsilon_decay *)
  epsilon_minimum : option Q;         (* defaults.epsilon_minimum *)
  lr_decay : option Q;                (* learning.lr_decay *)
  lr_minimum : option Q;              (* learning.lr_minimum *)
  stop_mean_reward : option Q;        (* stop.mean_reward *)
  save_epoches : option Z;            (* default.save_epoches *)
  copy_target_net_every_epoch : Z     (* dqn.copy_target_net_every_epoch *)
}.

(** What the collaborators of the loop deliver during one iteration. *)
Record World : Type := mkWorld {
  run : RunFile;                      (* the run file, after the optional reload *)
  emitted : outcome (nat -> Chain);   (* the chains of the experience source;
                                         a raise is a failing environment *)
  draws : nat -> nat;                 (* the random source of the sampling *)
  mean_reward : option Q              (* reward_sma.mean() when reported *)
}.

(** How one iteration, or the whole loop, ends. *)
Inductive flow : Type :=
| Next                (* ran to its end *)
| Break               (* left by the break of line 240 *)
| Raised (e : exn).   (* left by an exception *)

(** lines 192-199: loss, backward pass and optimizer step on one batch give
    the updated online network, or fail. *)
Variable optimizer_step : Net -> list Obs -> list (list Q) -> outcome Net.

Variables use_target_dqn use_double_dqn : bool.

(** lines 186-200 *)
Fixpoint batch_loop (batches : list Batch) (st : State) : outcome unit * State :=
  match batches with
  | [] => (Ok tt, st)
  | batch :: rest =>
      match batch_to_train use_target_dqn use_double_dqn batch st with
      | (Raise e, st1) => (Raise e, st1)
      | (Ok (states, q_vals), st1) =>
          match optimizer_step (model st1) states q_vals with
          | Raise e => (Raise e, st1)
          | Ok m => batch_loop rest (log EvTrain (set_model m st1))
          end
      end
  end.

(** lines 202-205 *)
Definition decay_epsilon (r : RunFile) (st : State) : State :=
  let st1 := log EvDecay (set_epsilon (epsilon st * epsilon_decay r)%Q st) in
  match epsilon_minimum r with
  | Some floor => set_epsilon (py_max floor (epsilon st1)) st1
  | None => st1
  end.

(** lines 208-215, for the single parameter group of the optimizer *)
Definition decay_lr (r : RunFile) (st : State) : State :=
  match lr_decay r with
  | Some d =>
      let l := (lr st * d)%Q in
      match lr_minimum r with
      | Some m => set_lr (py_max l m) st
      | None => set_lr l st
      end
  | None => st
  end.

(** lines 217-220 *)
Definition log_running_sums (st : State) : outcome unit * State :=
  match py_div (batches_sum_q0 st) (batches_count st) with
  | Raise e => (Raise e, st)
  | Ok _ =>
      match py_div (batches_sum_total_reward st) (batches_count st) with
      | Raise e => (Raise e, st)
      | Ok _ =>
          (Ok tt,
           set_batches_sum_q0 0%Q
             (set_batches_sum_total_reward 0%Q (set_batches_count 0%Z st)))
      end
  end.

(** lines 225-241: whether the loop is left by the break. *)
Definition report_break (w : World) (idx : Z) : bool :=
  if (idx mod REPORT_ITERS =? 0)%Z then
    match stop_mean_reward (run w), mean_reward w with
    | Some bound, Some m => Qle_bool bound m
    | _, _ => false
    end
  else false.

(** lines 243-244: whether a checkpoint is due. *)
Definition save_due (r : RunFile) (idx : Z) : outcome bool :=
  if (0 <? idx)%Z then
    match save_epoches r with
    | Some n => m ← py_mod idx n; Ok (m =? 0)%Z
    | None => Ok false
    end
  else Ok false.

(** line 250: whether the target network is to be synchronised. *)
Definition sync_due (r : RunFile) (idx : Z) : outcome bool :=
  m ← py_mod idx (copy_target_net_every_epoch r); Ok (m =? 0)%Z.

(** Modelled from the spec: agent.TargetNet.sync (ptan/agent.py is not among
    the sources).  "The target estimator's parameters are replaced
    wholesale by a copy of the online estimator's current parameters." *)
Definition sync (idx : Z) (st : State) : State :=
  log (EvSync idx) (set_target_net_model (model st) st).

(** lines 181-252: the body of the loop. *)
Definition iteration (w : World) (idx : Z) (st : State) : flow * State :=
  match emitted w with
  | Raise e => (Raised e, st)
  | Ok emit =>
      let st1 :=
        set_exp_replay (populate (exp_buffer_populate (run w)) emit (exp_replay st)) st in
      match sample_batches (learning_batch_size (run w)) (draws w) (exp_replay st1) with
      | Raise e => (Raised e, st1)
      | Ok batches =>
          match batch_loop batches st1 with
          | (Raise e, st2) => (Raised e, st2)
          | (Ok _, st2) =>
              let st3 := decay_lr (run w) (decay_epsilon (run w) st2) in
              match log_running_sums st3 with
              | (Raise e, st4) => (Raised e, st4)
              | (Ok _, st4) =>
                  if report_break w idx then (Break, st4)
                  else
                    match save_due (run w) idx with
                    | Raise e => (Raised e, st4)
                    | Ok _ =>
                        match sync_due (run w) idx with
                        | Raise e => (Raised e, st4)
                        | Ok true => (Next, sync idx st4)
                        | Ok false => (Next, st4)
                        end
                    end
              end
          end
      end
  end.

(** line 180: [n] iterations starting at index [idx]; [world i] is what the
    collaborators deliver in iteration [i]. *)
Fixpoint training_loop (n : nat) (idx : Z) (world : Z -> World) (st : State)
    : flow * State :=
  match n with
  | O => (Next, st)
  | S n' =>
      match iteration (world idx) idx st with
      | (Next, st') => training_loop n' (idx + 1)%Z world st'
      | (f, st') => (f, st')
      end
  end.

(** lines 254-255 *)
Definition close_all (env_pool_size : nat) (st : State) : State :=
  fold_left (fun st' i => log (EvClose i) st') (seq 0 env_pool_size) st.

(** lines 179-255: the [try] with its [finally]. *)
Definition main (env_pool_size : nat) (world : Z -> World) (st : State)
    : flow * State :=
  let '(f, st') := training_loop ITERATIONS 0%Z world st in
  (f, close_all env_pool_size st').

End Script.

Arguments Experience Obs : clear implicits.
Abbreviation Chain Obs := (list (Experience Obs)) (only parsing).
Abbreviation Batch Obs := (list (list (Experience Obs))) (only parsing).
Abbreviation Net Obs := (Obs -> list Q) (only parsing).
Arguments ReplayStore Obs : clear implicits.
Arguments State Obs : clear implicits.
Arguments World Obs : clear implicits.

(** ** The network (lines 27-59), at the level of tensor shapes

    The values the layers compute are floating-point convolutions and are
    not modelled.  What is modelled is the shape of every tensor, by the
    shape rules of the layers the script instantiates ([nn.Conv2d] with
    stride 1 and no padding, [F.max_pool2d] with the stride equal to the
    kernel size and the floor rule, [nn.Linear]), and the shape errors
    they raise. *)

(** The shape of a batch of images: (batch, channels, height, width). *)
Record Shape4 : Type := mkShape4 {
  sh_batch : nat;
  sh_channels : nat;
  sh_height : nat;
  sh_width : nat
}.

(** [nn.Conv2d(in_channels, out_channels, kernel_size)] *)
Record Conv2d : Type := mkConv2d {
  in_channels : nat;
  out_channels : nat;
  kernel_size : nat
}.

(** [nn.Linear(in_features, out_features)] *)
Record Linear : Type := mkLinear {
  in_features : nat;
  out_features : nat
}.

(** Applying a convolution layer. *)
Definition conv2d (c : Conv2d) (x : Shape4) : outcome Shape4 :=
  if negb (sh_channels x =? in_channels c)%nat then Raise RuntimeError
  else if ((sh_height x <? kernel_size c) || (sh_width x <? kernel_size c))%nat
  then Raise RuntimeError
  else Ok (mkShape4 (sh_batch x) (out_channels c)
             (sh_height x - kernel_size c + 1) (sh_width x - kernel_size c + 1)).

(** [F.max_pool2d(x, k)] *)
Definition max_pool2d (k : nat) (x : Shape4) : outcome Shape4 :=
  if ((sh_height x <? k) || (sh_width x <? k))%nat then Raise RuntimeError
  else Ok (mkShape4 (sh_batch x) (sh_channels x)
             ((sh_height x - k) / k + 1) ((sh_width x - k) / k + 1)).

(** [F.relu] keeps the shape, on image batches and on matrices. *)
Definition relu {A : Type} (x : A) : A := x.

(** Applying a linear layer to a matrix (rows, features). *)
Definition linear (l : Linear) (x : nat * nat) : outcome (nat * nat) :=
  if (snd x =? in_features l)%nat then Ok (fst x, out_features l)
  else Raise RuntimeError.

(** The layers of a [Net] instance. *)
Record NetModule : Type := mkNetModule {
  conv1 : Conv2d;
  conv2 : Conv2d;
  conv3 : Conv2d;
  fc1 : Linear;
  fc2 : Linear;
  fc3 : Linear
}.

(** lines 47-51 *)
Definition _forward_conv (c1 c2 c3 : Conv2d) (x : Shape4) : outcome Shape4 :=
  x ← conv2d c1 x; x ← max_pool2d 3 x;
  x ← conv2d c2 (relu x); x ← max_pool2d 3 x;
  x ← conv2d c3 (relu x); x ← max_pool2d 3 x;
  Ok (relu x).

(** lines 40-45: the number of features of the convolution output for one
    image of shape [shape] = (channels, height, width). *)
Definition _get_conv_output (c1 c2 c3 : Conv2d) (shape : nat * nat * nat)
    : outcome nat :=
  let '(c, h, w) := shape in
  output_feat ← _forward_conv c1 c2 c3 (mkShape4 1 c h w);
  Ok (sh_channels output_feat * sh_height output_feat * sh_width output_feat)%nat.

(** lines 28-38: [Net.__init__] *)
Definition Net_init (n_actions : nat) (input_shape : nat * nat * nat)
    : outcome NetModule :=
  let c1 := mkConv2d (fst (fst input_shape)) 32 5 in
  let c2 := mkConv2d 32 32 3 in
  let c3 := mkConv2d 32 64 2 in
  n_size ← _get_conv_output c1 c2 c3 input_shape;
  Ok (mkNetModule c1 c2 c3
        (mkLinear n_size 256) (mkLinear 256 256) (mkLinear 256 n_actions)).

(** lines 53-59: [Net.forward] *)
Definition forward (net : NetModule) (x : Shape4) : outcome (nat * nat) :=
  x ← _forward_conv (conv1 net) (conv2 net) (conv3 net) x;
  let x := (sh_batch x, sh_channels x * sh_height x * sh_width x)%nat in
  x ← linear (fc1 net) x;
  x ← linear (fc2 net) (relu x);
  linear (fc3 net) (relu x).

(** One spatial dimension through the three stages of lines 48-50:
    convolution with kernel 5, 3 and 2, each followed by a pooling with
    kernel 3. *)
Definition conv_stack_dim (x : nat) : nat :=
  ((((x - 5 + 1 - 3) / 3 + 1 - 3 + 1 - 3) / 3 + 1 - 2 + 1 - 3) / 3 + 1)%nat.

(** line 98: the input shape the script builds its model for. *)
Definition input_shape (grayscale : bool) (frames_count im_height im_width : nat)
    : nat * nat * nat :=
  (if grayscale then frames_count else 3 * frames_count, im_height, im_width)%nat.

(** ** Example data

    Observations are numbered; the networks have three actions. *)

Definition ex_model : Net nat := fun s =>
  match s with
  | 0%nat => [1; 3; 2]%Q
  | 1%nat => [4; 0; 5]%Q
  | _ => [2; 6; 1]%Q
  end.

Definition ex_target_model : Net nat := fun s =>
  match s with
  | 0%nat => [7; 1; 9]%Q
  | 1%nat => [0; 2; 8]%Q
  | _ => [5; 4; 3]%Q
  end.

Definition ex_store : ReplayStore nat := mkReplayStore 2 1 [].

Definition ex_state : State nat :=
  mkState ex_model ex_target_model 1%Q (1 # 1000)%Q ex_store 0%Z 0%Q 0%Q [].

(** The state right after a synchronisation: the target network is a copy
    of the online network. *)
Definition ex_synced_state : State nat :=
  set_target_net_model ex_model ex_state.

(** A chain of length 1 whose only transition ends the episode with
    reward 1. *)
Definition ex_terminal_chain : Chain nat :=
  [mkExperience 0%nat 1%nat 1%Q true].

(** A non-terminal chain with the rewards 1, 2, 3. *)
Definition ex_chain3 : Chain nat :=
  [mkExperience 0%nat 1%nat 1%Q false;
   mkExperience 1%nat 0%nat 2%Q false;
   mkExperience 2%nat 2%nat 3%Q false].

Definition ex_batch : Batch nat := [ex_chain3; ex_terminal_chain].

(** An optimizer step that shifts every output of the network by 1/10. *)
Definition ex_optimizer_step (net : Net nat) (states : list nat)
    (q_vals : list (list Q)) : outcome (Net nat) :=
  Ok (fun s => map (fun q => Qred (q + (1 # 10))%Q) (net s)).

(** An optimizer step that leaves the network as it is. *)
Definition ex_frozen_optimizer_step (net : Net nat) (states : list nat)
    (q_vals : list (list Q)) : outcome (Net nat) :=
  Ok net.

Definition ex_run : RunFile :=
  mkRunFile 2 2 (99 # 100)%Q (Some (1 # 10)%Q) None None (Some 100%Q) None 3%Z.

(** Every iteration: two new chains, one batch of two, no stop. *)
Definition ex_world (idx : Z) : World nat :=
  mkWorld ex_run (Ok (fun _ => ex_chain3)) (fun n => n) None.

(** The mean reward reaches the bound in the first report. *)
Definition ex_world_break (idx : Z) : World nat :=
  mkWorld ex_run (Ok (fun _ => ex_chain3)) (fun n => n) (Some 200%Q).

(** An environment fails during the first populate. *)
Definition ex_world_env_failure (idx : Z) : World nat :=
  mkWorld ex_run (Raise EnvironmentFailureError) (fun n => n) None.

(** The batch size exceeds what the store holds: no batch is sampled. *)
Definition ex_world_no_batch (idx : Z) : World nat :=
  mkWorld (mkRunFile 2 4 (99 # 100)%Q (Some (1 # 10)%Q) None None None None 3%Z)
    (Ok (fun _ => ex_chain3)) (fun n => n) None.

(** A run file with decay rate [d] and floor [f]. *)
Definition ex_run_decay (d f : Q) : RunFile :=
  mkRunFile 2 2 d (Some f) None None None None 3%Z.

(** A run file without a floor for epsilon. *)
Definition ex_run_no_floor : RunFile :=
  mkRunFile 2 2 (99 # 100)%Q None None None None None 3%Z.

(** A run file that halves the learning rate down to 1/1500. *)
Definition ex_run_lr : RunFile :=
  mkRunFile 2 2 (99 # 100)%Q (Some (1 # 10)%Q) (Some (1 # 2)%Q) (Some (1 # 1500)%Q)
    None None 3%Z.

Definition ex_world_lr (idx : Z) : World nat :=
  mkWorld ex_run_lr (Ok (fun _ => ex_chain3)) (fun n => n) None.

(** A run file with [save_epoches = 0]. *)
Definition ex_world_save0 (idx : Z) : World nat :=
  mkWorld (mkRunFile 2 2 (99 # 100)%Q (Some (1 # 10)%Q) None None None (Some 0%Z) 3%Z)
    (Ok (fun _ => ex_chain3)) (fun n => n) None.

(** A store whose configured minimum fill is 5 chains. *)
Definition ex_state_min5 : State nat :=
  set_exp_replay (mkReplayStore 8 5 []) ex_state.

(** ** Properties of the primitives *)

Lemma bind_Ok_inv {A B : Type} (m : outcome A) (k : A -> outcome B) (b : B) :
  m ≫= k = Ok b -> exists a, m = Ok a /\ k a = Ok b.
Proof.
  destruct m as [a|e]; simpl; intros H; [eauto | discriminate].
Qed.

Lemma Ok_inj {A : Type} (a b : A) : Ok a = Ok b -> a = b.
Proof.
  intros [= H]. exact H.
Qed.

Lemma getitem_Ok {A : Type} (l : list A) (i : nat) (a : A) :
  getitem l i = Ok a <-> l !! i = Some a.
Proof.
  unfold getitem. destruct (l !! i); split; intros H; congruence.
Qed.

Lemma setitem_Ok {A : Type} (l : list A) (i : nat) (v : A) (l' : list A) :
  setitem l i v = Ok l' <-> (i < length l)%nat /\ l' = <[i := v]> l.
Proof.
  unfold setitem. destruct (Nat.ltb_spec i (length l)); split.
  - intros [= <-]. auto.
  - intros [_ ->]. reflexivity.
  - discriminate.
  - intros [Hlt _]. lia.
Qed.

Lemma setitem2_Ok (t : list (list Q)) (i j : nat) (v : Q) (t' : list (list Q)) :
  setitem2 t i j v = Ok t' <->
  exists row, t !! i = Some row /\ (j < length row)%nat /\ t' = <[i := <[j := v]> row]> t.
Proof.
  unfold setitem2. split.
  - intros H. apply bind_Ok_inv in H as (row & Hrow & H).
    apply bind_Ok_inv in H as (row' & Hrow' & H).
    apply getitem_Ok in Hrow. apply setitem_Ok in Hrow' as [Hj ->].
    apply setitem_Ok in H as [_ ->]. eauto.
  - intros (row & Hrow & Hj & ->).
    apply getitem_Ok in Hrow as Hg. rewrite Hg. simpl.
    assert (Hs : setitem row j v = Ok (<[j := v]> row)) by (apply setitem_Ok; auto).
    rewrite Hs. simpl. apply setitem_Ok. split; [|reflexivity].
    eapply lookup_lt_Some; eauto.
Qed.

Lemma map_outcome_Ok {A B : Type} (f : A -> outcome B) (l : list A) (bs : list B) :
  map_outcome f l = Ok bs ->
  length bs = length l /\
  forall i a, l !! i = Some a -> exists b, f a = Ok b /\ bs !! i = Some b.
Proof.
  revert bs. induction l as [|x l IH]; simpl; intros bs H.
  - injection H as <-. split; [reflexivity|]. intros i a Hi.
    rewrite lookup_nil in Hi. discriminate.
  - apply bind_Ok_inv in H as (b & Hb & H).
    apply bind_Ok_inv in H as (bs' & Hbs' & H). injection H as <-.
    destruct (IH _ Hbs') as [Hlen Hall]. split; [simpl; lia|].
    intros [|i] a Hi; simpl in *.
    + injection Hi as <-. eauto.
    + apply Hall, Hi.
Qed.

Lemma fancy_index_Ok (qL : list (list Q)) (actions : list nat) (vs : list Q) :
  fancy_index qL actions = Ok vs ->
  forall i row a, qL !! i = Some row -> actions !! i = Some a ->
    exists v, row !! a = Some v /\ vs !! i = Some v.
Proof.
  revert actions vs. induction qL as [|r qL IH]; intros [|a0 actions] vs H;
    try discriminate.
  simpl in H. apply bind_Ok_inv in H as (v & Hv & H).
    apply bind_Ok_inv in H as (vs' & Hvs' & H). injection H as <-.
    apply getitem_Ok in Hv.
    intros [|i] row a Hrow Ha; simpl in *.
    + injection Hrow as <-. injection Ha as <-. eauto.
    + eapply IH; eauto.
Qed.

(** [row_max] returns an entry of the row that no other entry exceeds. *)
Lemma row_max_from_spec (xs pre : list Q) (b : Q) (bi : nat) (v : Q) (a : nat) :
  pre !! bi = Some b ->
  (forall j q, pre !! j = Some q -> (q <= b)%Q) ->
  row_max_from b bi (length pre) xs = (v, a) ->
  (pre ++ xs) !! a = Some v /\
  forall j q, (pre ++ xs) !! j = Some q -> (q <= v)%Q.
Proof.
  revert pre b bi. induction xs as [|x xs IH]; intros pre b bi Hb Hle H; simpl in H.
  - injection H as <- <-. rewrite app_nil_r. auto.
  - assert (Hlen : length (pre ++ [x]) = S (length pre))
      by (rewrite length_app; simpl; lia).
    rewrite <- Hlen in H.
    replace (pre ++ x :: xs) with ((pre ++ [x]) ++ xs)
      by (rewrite <- app_assoc; reflexivity).
    destruct (Qle_bool x b) eqn:Hx.
    + apply Qle_bool_iff in Hx.
      apply (IH (pre ++ [x]) b bi); [| |exact H].
      * apply lookup_app_l_Some, Hb.
      * intros j q Hj. apply lookup_app_Some in Hj as [Hj|[_ Hj]]; [eauto|].
        apply list_lookup_singleton_Some in Hj as [_ <-]. exact Hx.
    + assert (Hlt : (b < x)%Q).
      { apply Qnot_le_lt. intros Hc. apply Qle_bool_iff in Hc. congruence. }
      apply (IH (pre ++ [x]) x (length pre)); [| |exact H].
      * rewrite lookup_app_r by lia. rewrite Nat.sub_diag. reflexivity.
      * intros j q Hj. apply lookup_app_Some in Hj as [Hj|[_ Hj]].
        -- apply Qle_trans with b; [eauto | apply Qlt_le_weak, Hlt].
        -- apply list_lookup_singleton_Some in Hj as [_ <-]. apply Qle_refl.
Qed.

Lemma row_max_spec (row : list Q) (v : Q) (a : nat) :
  row_max row = Ok (v, a) ->
  row !! a = Some v /\ forall j q, row !! j = Some q -> (q <= v)%Q.
Proof.
  destruct row as [|x xs]; simpl; [discriminate|]. intros [= H].
  apply (row_max_from_spec xs [x] x 0%nat v a); [reflexivity | | exact H].
  intros [|j] q Hj; simpl in Hj; [|discriminate].
  injection Hj as <-. apply Qle_refl.
Qed.


Lemma backup_spec {Obs : Type} (exps : Chain Obs) (seed : Q) :
  backup exps seed = discounted_return_spec (map reward (removelast exps)) seed.
Proof.
  unfold backup. generalize (removelast exps) as l.
  induction l as [|e l IH]; simpl; [reflexivity|].
  rewrite fold_left_app. simpl. rewrite IH. reflexivity.
Qed.

(** ** batch_to_train *)

Section BatchToTrain.

Context {Obs : Type}.
Implicit Types (batch : Batch Obs) (exps : Chain Obs) (st : State Obs).

Lemma collect_states_Ok batch (v0_data vL_data : list Obs) :
  collect_states batch = Ok (v0_data, vL_data) ->
  length v0_data = length batch /\
  forall i exps, batch !! i = Some exps ->
    exists e0 eL, exps !! 0%nat = Some e0 /\ last exps = Some eL /\
      v0_data !! i = Some (state e0) /\ vL_data !! i = Some (state eL).
Proof.
  revert v0_data vL_data.
  induction batch as [|c batch IH]; intros v0_data vL_data H; simpl in H.
  - injection H as <- <-. split; [reflexivity|]. intros i exps Hi.
    rewrite lookup_nil in Hi. discriminate.
  - apply bind_Ok_inv in H as (e0 & He0 & H).
    apply bind_Ok_inv in H as (eL & HeL & H).
    apply bind_Ok_inv in H as ([v0 vL] & Hrest & H). injection H as <- <-.
    apply getitem_Ok in He0. unfold last_exp in HeL.
    destruct (last c) as [eL'|] eqn:Hlast; [|discriminate]. injection HeL as ->.
    destruct (IH _ _ Hrest) as [Hlen Hall]. split; [simpl; lia|].
    intros [|i] exps Hi; simpl in Hi.
    + injection Hi as <-. exists e0, eL. auto.
    + apply Hall, Hi.
Qed.

Lemma tensor_setitem2_Ok (t : list (list Q)) (i j : nat) (ty : scalar_type) (v : Q)
    (t' : list (list Q)) :
  tensor_setitem2 t i j ty v = Ok t' <->
  ty = python_float /\
  exists row, t !! i = Some row /\ (j < length row)%nat /\ t' = <[i := <[j := v]> row]> t.
Proof.
  unfold tensor_setitem2, getitem. split.
  - destruct (t !! i) as [row|] eqn:Hrow; simpl; [|discriminate].
    destruct ty; [discriminate|]. intros H. split; [reflexivity|].
    apply setitem2_Ok in H as (row' & Hrow' & Hj & ->).
    exists row'. rewrite <- Hrow, Hrow'. auto.
  - intros [-> H]. destruct H as (row & Hrow & Hj & ->). rewrite Hrow. simpl.
    apply setitem2_Ok. eauto.
Qed.

(** An entry read from the array [total_rewards] is the bootstrap value of
    that index. *)
Lemma total_rewards_array_getitem (ut ud : bool) (values : list Q) (i : nat) (v : Q) :
  array_getitem (total_rewards_array ut ud values) i = Ok v ->
  values !! i = Some v.
Proof.
  unfold total_rewards_array.
  destruct (ut && ud); simpl; [apply getitem_Ok|].
  destruct values as [|x [|y l]]; simpl; try discriminate; apply getitem_Ok.
Qed.


(** The loop of lines 163-172 rewrites, in row [idx + k] of [q0], the entry
    of the action taken first in chain [k], and nothing else. *)
Lemma backup_loop_Ok batch :
  forall idx total_rewards q0 acc q0' acc',
  backup_loop idx batch total_rewards q0 acc = Ok (q0', acc') ->
  length q0' = length q0 /\
  (forall i, (i < idx \/ idx + length batch <= i)%nat -> q0' !! i = q0 !! i) /\
  (forall k exps, batch !! k = Some exps ->
     exists e0 eL seed row,
       exps !! 0%nat = Some e0 /\ last exps = Some eL /\
       (if done eL then seed = 0%Q
        else array_getitem total_rewards (idx + k)%nat = Ok seed) /\
       total_reward_type exps eL = python_float /\
       q0 !! (idx + k)%nat = Some row /\ (action e0 < length row)%nat /\
       q0' !! (idx + k)%nat = Some (<[action e0 := backup exps seed]> row)).
Proof.
  induction batch as [|c batch IH]; intros idx tr q0 acc q0' acc' H; simpl in H.
  - injection H as <- <-. split; [reflexivity|]. split; [reflexivity|].
    intros k exps Hk. rewrite lookup_nil in Hk. discriminate.
  - apply bind_Ok_inv in H as (eL & HeL & H).
    apply bind_Ok_inv in H as (seed & Hseed & H).
    apply bind_Ok_inv in H as (e0 & He0 & H).
    apply bind_Ok_inv in H as (q1 & Hq1 & H).
    unfold last_exp in HeL.
    destruct (last c) as [eL'|] eqn:Hlast; [|discriminate]. injection HeL as ->.
    apply getitem_Ok in He0.
    apply tensor_setitem2_Ok in Hq1 as (Hty & row & Hrow & Ha & ->).
    destruct (IH _ _ _ _ _ _ H) as (Hlen & Hframe & Hrows).
    rewrite length_insert in Hlen.
    split; [exact Hlen|]. split.
    + intros i Hi. simpl in Hi. rewrite Hframe by lia.
      apply list_lookup_insert_ne. lia.
    + intros [|k] exps Hk; simpl in Hk.
      * injection Hk as <-. exists e0, eL, seed, row.
        rewrite Nat.add_0_r. repeat split; auto.
        -- destruct (done eL); [congruence | exact Hseed].
        -- rewrite Hframe by lia. apply list_lookup_insert_eq.
           eapply lookup_lt_Some; eauto.
      * destruct (Hrows k exps Hk)
          as (e0' & eL' & seed' & row' & H0 & HL & Hs & Hty' & Hr & Hlt & Hq).
        exists e0', eL', seed', row'.
        replace (idx + S k)%nat with (S idx + k)%nat by lia.
        repeat split; auto.
        rewrite list_lookup_insert_ne in Hr by lia. exact Hr.
Qed.

(** What a returning call of [batch_to_train] has computed. *)
Lemma batch_to_train_Ok (ut ud : bool) batch st states q_vals st' :
  batch_to_train ut ud batch st = (Ok (states, q_vals), st') ->
  exists vL_data total_rewards sum_total_reward,
    collect_states batch = Ok (states, vL_data) /\
    total_rewards_of ut ud st vL_data = Ok total_rewards /\
    backup_loop 0 batch (total_rewards_array ut ud total_rewards)
      (map (model st) states) 0%Q
      = Ok (q_vals, sum_total_reward) /\
    batch <> [] /\
    st' = set_batches_sum_total_reward
            (batches_sum_total_reward st
             + sum_total_reward / inject_Z (Z.of_nat (length batch)))%Q
            (set_batches_sum_q0
               (batches_sum_q0 st + tensor_mean (map (model st) states))%Q
               (set_batches_count (batches_count st + 1)%Z st)).
Proof.
  unfold batch_to_train.
  destruct (collect_states batch) as [[v0 vL]|e] eqn:Hc; [|discriminate].
  cbv zeta.
  match goal with |- context [total_rewards_of ut ud ?s vL] =>
    change (total_rewards_of ut ud s vL) with (total_rewards_of ut ud st vL) end.
  destruct (total_rewards_of ut ud st vL) as [tr|e] eqn:Htr; [|discriminate].
  simpl.
  destruct (backup_loop 0 batch (total_rewards_array ut ud tr) (map (model st) v0) 0%Q)
    as [[q0' s]|e] eqn:Hb; [|discriminate].
  unfold py_div.
  destruct (Z.eqb_spec (Z.of_nat (length batch)) 0) as [Hz|Hz]; [discriminate|].
  intros [= <- <- <-]. exists vL, tr, s.
  repeat split; auto.
  intros ->. apply Hz. reflexivity.
Qed.

(** Row [idx] of the returned targets, for the chain at position [idx]. *)
Lemma batch_to_train_row (ut ud : bool) batch st states q_vals st' idx exps :
  batch_to_train ut ud batch st = (Ok (states, q_vals), st') ->
  batch !! idx = Some exps ->
  exists vL_data total_rewards e0 eL seed,
    collect_states batch = Ok (states, vL_data) /\
    total_rewards_of ut ud st vL_data = Ok total_rewards /\
    exps !! 0%nat = Some e0 /\ last exps = Some eL /\
    states !! idx = Some (state e0) /\ vL_data !! idx = Some (state eL) /\
    (if done eL then seed = 0%Q else total_rewards !! idx = Some seed) /\
    (action e0 < length (model st (state e0)))%nat /\
    q_vals !! idx = Some (<[action e0 := backup exps seed]> (model st (state e0))).
Proof.
  intros H Hidx.
  apply batch_to_train_Ok in H as (vL & tr & s & Hc & Htr & Hb & _ & _).
  destruct (collect_states_Ok _ _ _ Hc) as [_ Hst].
  destruct (Hst _ _ Hidx) as (e0 & eL & H0 & HL & Hv0 & HvL).
  destruct (backup_loop_Ok _ _ _ _ _ _ _ Hb) as (_ & _ & Hrows).
  destruct (Hrows _ _ Hidx)
    as (e0' & eL' & seed & row & H0' & HL' & Hs & _ & Hr & Hlt & Hq).
  simpl in Hs, Hr, Hq.
  assert (e0' = e0) as -> by congruence. assert (eL' = eL) as -> by congruence.
  rewrite list_lookup_fmap, Hv0 in Hr. injection Hr as <-.
  exists vL, tr, e0, eL, seed. repeat split; auto.
  destruct (done eL); [exact Hs|]. eapply total_rewards_array_getitem, Hs.
Qed.

(** C1 (as amended): for the chain at position [idx] of the batch, the
    target written at the action taken first is the discounted backup over
    the rewards of all transitions but the last one, whose state is the
    bootstrap input and whose reward is not used, seeded with the bootstrap
    value [V]; [V] is 0 when the last transition has [done] set and the
    value selected for the chain otherwise.  For a chain of length 1 the
    target is [V] itself. *)
Theorem C1_target_is_backup_over_all_but_last_reward
    (ut ud : bool) batch st states q_vals st' idx exps e0 eL :
  batch_to_train ut ud batch st = (Ok (states, q_vals), st') ->
  batch !! idx = Some exps ->
  exps !! 0%nat = Some e0 ->
  last exps = Some eL ->
  exists vL_data total_rewards V row,
    collect_states batch = Ok (states, vL_data) /\
    total_rewards_of ut ud st vL_data = Ok total_rewards /\
    (if done eL then V = 0%Q else total_rewards !! idx = Some V) /\
    q_vals !! idx = Some row /\
    row !! action e0
      = Some (discounted_return_spec (map reward (removelast exps)) V) /\
    (length exps = 1%nat -> row !! action e0 = Some V).
Proof.
  intros H Hidx H0 HL.
  destruct (batch_to_train_row _ _ _ _ _ _ _ _ _ H Hidx)
    as (vL & tr & e0' & eL' & seed & Hc & Htr & H0' & HL' & _ & _ & Hs & Hlt & Hq).
  assert (e0' = e0) as -> by congruence. assert (eL' = eL) as -> by congruence.
  exists vL, tr, seed, (<[action e0 := backup exps seed]> (model st (state e0))).
  repeat split; auto.
  - rewrite list_lookup_insert_eq by exact Hlt. rewrite backup_spec. reflexivity.
  - intros Hlen. rewrite list_lookup_insert_eq by exact Hlt.
    destruct exps as [|e [|e' exps]]; simpl in Hlen; try discriminate.
    reflexivity.
Qed.

(** C7: the returned target row of a chain is the online network's output
    on the chain's first state with the entry of the action taken first
    replaced by the backed-up total; every other entry is the network's own
    prediction. *)
Theorem C7_target_row_is_online_row_with_taken_entry_replaced
    (ut ud : bool) batch st states q_vals st' idx exps e0 :
  batch_to_train ut ud batch st = (Ok (states, q_vals), st') ->
  batch !! idx = Some exps ->
  exps !! 0%nat = Some e0 ->
  exists vL_data total_rewards eL seed row,
    states !! idx = Some (state e0) /\
    q_vals !! idx = Some row /\
    row = <[action e0 := backup exps seed]> (model st (state e0)) /\
    length row = length (model st (state e0)) /\
    row !! action e0 = Some (backup exps seed) /\
    (forall a, a <> action e0 -> row !! a = model st (state e0) !! a) /\
    collect_states batch = Ok (states, vL_data) /\
    total_rewards_of ut ud st vL_data = Ok total_rewards /\
    last exps = Some eL /\
    (if done eL then seed = 0%Q else total_rewards !! idx = Some seed).
Proof.
  intros H Hidx H0.
  destruct (batch_to_train_row _ _ _ _ _ _ _ _ _ H Hidx)
    as (vL & tr & e0' & eL & seed & Hc & Htr & H0' & HL & Hv0 & _ & Hs & Hlt & Hq).
  assert (e0' = e0) as -> by congruence.
  exists vL, tr, eL, seed, (<[action e0 := backup exps seed]> (model st (state e0))).
  repeat split; auto.
  - apply length_insert.
  - apply list_lookup_insert_eq, Hlt.
  - intros a Ha. apply list_lookup_insert_ne. congruence.
Qed.

(** [total_rewards_of] reads the two networks only. *)
Lemma total_rewards_of_ext (ut ud : bool) st st2 (vL : list Obs) :
  model st2 = model st -> target_net_model st2 = target_net_model st ->
  total_rewards_of ut ud st2 vL = total_rewards_of ut ud st vL.
Proof.
  intros Hm Ht. unfold total_rewards_of, target_model. rewrite Hm, Ht. reflexivity.
Qed.

(** C2 (as amended): in double mode the bootstrap value selected for a
    chain (before the [done] override) is the target network's output on
    the bootstrap state at the index [a] at which the online network's
    output on that state is maximal.  It is read from the target network:
    it coincides with the online network's own maximum exactly when the
    target network's entry at [a] happens to equal the online one. *)
Theorem C2_double_bootstrap_is_target_at_online_argmax
    st (vL_data : list Obs) total_rewards idx (s : Obs) :
  total_rewards_of true true st vL_data = Ok total_rewards ->
  vL_data !! idx = Some s ->
  exists vmax a v,
    row_max (model st s) = Ok (vmax, a) /\
    model st s !! a = Some vmax /\
    (forall j q, model st s !! j = Some q -> (q <= vmax)%Q) /\
    target_net_model st s !! a = Some v /\
    total_rewards !! idx = Some v /\
    ((v == vmax)%Q <->
     exists t q, target_net_model st s !! a = Some t /\ model st s !! a = Some q /\
                 (t == q)%Q).
Proof.
  unfold total_rewards_of. simpl. intros H Hs.
  apply bind_Ok_inv in H as (actions & Hacts & H).
  destruct (map_outcome_Ok _ _ _ Hacts) as [_ Hall].
  destruct (Hall _ _ Hs) as (a & Ha & Hai).
  apply bind_Ok_inv in Ha as ([vmax a'] & Hmax & Ha). injection Ha as ->.
  destruct (row_max_spec _ _ _ Hmax) as [Hat Hle].
  assert (Hrow : map (target_net_model st) vL_data !! idx = Some (target_net_model st s))
    by (rewrite list_lookup_fmap, Hs; reflexivity).
  destruct (fancy_index_Ok _ _ _ H _ _ _ Hrow Hai) as (v & Hv & Hvi).
  exists vmax, a, v. repeat split; auto.
  - intros Heq. exists v, vmax. auto.
  - intros (t & q & Ht & Hq & Heq).
    assert (t = v) as -> by congruence. assert (q = vmax) as -> by congruence.
    exact Heq.
Qed.

(** [batch_to_train] writes to the three running sums only, whether it
    returns or raises. *)
Lemma batch_to_train_frame (ut ud : bool) batch st r st' :
  batch_to_train ut ud batch st = (r, st') ->
  model st' = model st /\
  target_net_model st' = target_net_model st /\
  epsilon st' = epsilon st /\
  lr st' = lr st /\
  exp_replay st' = exp_replay st /\
  trace st' = trace st.
Proof.
  unfold batch_to_train.
  destruct (collect_states batch) as [[v0 vL]|e]; [|intros [= <- <-]; auto 10].
  cbv zeta.
  destruct (_ ≫= _) as [[q0' s]|e]; [|intros [= <- <-]; simpl; auto 10].
  destruct (py_div _ _); intros [= <- <-]; simpl; auto 10.
Qed.

(** C6 (as amended): a call of [batch_to_train] changes no module-level
    variable other than the three running sums; when it returns,
    [batches_count] has grown by one, [batches_sum_q0] by the mean of the
    online network's outputs on the first states, and
    [batches_sum_total_reward] by the batch mean of the backed-up totals. *)
Theorem C6_batch_to_train_changes_only_the_running_sums
    (ut ud : bool) batch st r st' :
  batch_to_train ut ud batch st = (r, st') ->
  model st' = model st /\
  target_net_model st' = target_net_model st /\
  epsilon st' = epsilon st /\
  lr st' = lr st /\
  exp_replay st' = exp_replay st /\
  trace st' = trace st /\
  forall states q_vals, r = Ok (states, q_vals) ->
    batches_count st' = (batches_count st + 1)%Z /\
    batches_sum_q0 st'
      = (batches_sum_q0 st + tensor_mean (map (model st) states))%Q /\
    exists vL_data total_rewards sum_total_reward,
      collect_states batch = Ok (states, vL_data) /\
      total_rewards_of ut ud st vL_data = Ok total_rewards /\
      backup_loop 0 batch (total_rewards_array ut ud total_rewards)
        (map (model st) states) 0%Q
        = Ok (q_vals, sum_total_reward) /\
      batches_sum_total_reward st'
        = (batches_sum_total_reward st
           + sum_total_reward / inject_Z (Z.of_nat (length batch)))%Q.
Proof.
  intros H.
  destruct (batch_to_train_frame _ _ _ _ _ _ H) as (? & ? & ? & ? & ? & ?).
  repeat split; auto;
    subst r; apply batch_to_train_Ok in H
      as (vL & tr & s & Hc & Htr & Hb & _ & ->); try reflexivity.
  exists vL, tr, s. auto.
Qed.

(** C9: with the double flag set and the target flag clear,
    [batch_to_train] takes the plain branch: the bootstrap values are the
    row maxima of the online network, and result and state are those of the
    plain configuration. *)
Theorem C9_double_without_target_is_plain batch st (vL_data : list Obs) :
  batch_to_train false true batch st = batch_to_train false false batch st /\
  total_rewards_of false true st vL_data
    = map_outcome (fun s => '(v, _) ← row_max (model st s); Ok v) vL_data /\
  total_rewards_of false true st vL_data = total_rewards_of false false st vL_data.
Proof.
  repeat split; reflexivity.
Qed.

(** *** Well-formed batches are transformed without raising *)










End BatchToTrain.

(** ** Arithmetic of the epsilon schedule *)

Lemma py_max_spec (a b : Q) :
  ((b <= a)%Q /\ py_max a b = a) \/ ((a < b)%Q /\ py_max a b = b).
Proof.
  unfold py_max. destruct (Qle_bool b a) eqn:H.
  - left. split; [apply Qle_bool_iff, H | reflexivity].
  - right. split; [|reflexivity].
    apply Qnot_le_lt. intros Hc. apply Qle_bool_iff in Hc. congruence.
Qed.

Lemma py_max_Qeq (a b b' : Q) :
  (b == b')%Q -> (py_max a b == py_max a b')%Q.
Proof.
  intros H.
  destruct (py_max_spec a b) as [[H1 ->]|[H1 ->]];
  destruct (py_max_spec a b') as [[H2 ->]|[H2 ->]]; lra.
Qed.

Lemma Qpower_succ_nat (d : Q) (k : nat) :
  (d ^ Z.of_nat (S k) == d ^ Z.of_nat k * d)%Q.
Proof.
  rewrite Nat2Z.inj_succ. unfold Z.succ.
  rewrite Qpower_plus' by lia. rewrite Qpower_1_r. reflexivity.
Qed.

Lemma Qpower_nat_bounds (d : Q) (k : nat) :
  (0 <= d)%Q ->
  (0 <= d ^ Z.of_nat k)%Q /\
  (d <= 1 -> d ^ Z.of_nat k <= 1)%Q /\
  (1 <= d -> 1 <= d ^ Z.of_nat k)%Q.
Proof.
  intros Hd. induction k as [|k (H0 & Hle & Hge)].
  - simpl. repeat split; intros; lra.
  - rewrite Qpower_succ_nat. repeat split; intros; nra.
Qed.

(** One step of the clamped decay keeps the closed form. *)
Lemma clamped_decay_step (f e0 d p e : Q) :
  (0 <= d)%Q -> (f <= e0)%Q ->
  (0 <= p)%Q -> (d <= 1 -> p <= 1)%Q -> (1 <= d -> 1 <= p)%Q ->
  (e == py_max f (e0 * p))%Q ->
  (py_max f (e * d) == py_max f (e0 * (p * d)))%Q.
Proof.
  intros Hd Hf Hp Hp1 Hp2 He.
  destruct (py_max_spec f (e0 * p)) as [[H1 E1]|[H1 E1]]; rewrite E1 in He;
  destruct (py_max_spec f (e * d)) as [[H2 E2]|[H2 E2]]; rewrite E2;
  destruct (py_max_spec f (e0 * (p * d))) as [[H3 E3]|[H3 E3]]; rewrite E3;
  try lra; try nra.
  all: assert (Hfd : (f < f * d)%Q) by nra.
  all: assert (Hk : (f <= e0 * p)%Q).
  1, 3: destruct (Qlt_le_dec 1 d) as [Hd1|Hd1];
    [ assert (1 <= p)%Q by (apply Hp2; lra); assert (0 < f)%Q by nra; nra
    | assert (p <= 1)%Q by (apply Hp1; lra); assert (f < 0)%Q by nra;
      destruct (Qlt_le_dec e0 0); nra ].
  all: assert (0 <= (e0 * p - f) * d)%Q by (apply Qmult_le_0_compat; lra).
  all: nra.
Qed.

(** ** The replay store *)

Section Store.

Context {Obs : Type}.

Lemma sample_batches_Ok (batch_size : nat) (draws : nat -> nat)
    (rs : ReplayStore Obs) (batches : list (Batch Obs)) :
  sample_batches batch_size draws rs = Ok batches ->
  (min_required rs <= length (buffer rs))%nat /\
  length batches = (length (buffer rs) / batch_size)%nat /\
  Forall (fun batch => length batch = batch_size) batches.
Proof.
  unfold sample_batches.
  destruct (Nat.ltb_spec (length (buffer rs)) (min_required rs)); [discriminate|].
  intros [= <-]. split; [assumption|]. split.
  - rewrite length_map, length_seq. reflexivity.
  - apply Forall_forall. intros batch Hin.
    apply list_elem_of_fmap in Hin as (j & -> & _).
    rewrite length_map, length_seq. reflexivity.
Qed.

Lemma sample_batches_insufficient (batch_size : nat) (draws : nat -> nat)
    (rs : ReplayStore Obs) :
  (length (buffer rs) < min_required rs)%nat ->
  sample_batches batch_size draws rs = Raise InsufficientDataError.
Proof.
  intros H. unfold sample_batches.
  destruct (Nat.ltb_spec (length (buffer rs)) (min_required rs)); [reflexivity|lia].
Qed.

(** A store that passes the fill check but holds fewer chains than one
    batch yields no batch at all. *)
Lemma sample_batches_small_store (batch_size : nat) (draws : nat -> nat)
    (rs : ReplayStore Obs) :
  (min_required rs <= length (buffer rs) < batch_size)%nat ->
  sample_batches batch_size draws rs = Ok [].
Proof.
  intros [H1 H2]. unfold sample_batches.
  destruct (Nat.ltb_spec (length (buffer rs)) (min_required rs)); [lia|].
  rewrite Nat.div_small by exact H2. reflexivity.
Qed.

End Store.

(** ** The outer loop *)

Section Loop.

Context {Obs : Type}.
Variable optimizer_step : Net Obs -> list Obs -> list (list Q) -> outcome (Net Obs).
Variables use_target_dqn use_double_dqn : bool.
Implicit Types (st s : State Obs) (w : World Obs) (r : RunFile).

Local Abbreviation batch_loop := (batch_loop optimizer_step use_target_dqn use_double_dqn).
Local Abbreviation iteration := (iteration optimizer_step use_target_dqn use_double_dqn).
Local Abbreviation run_loop :=
  (training_loop optimizer_step use_target_dqn use_double_dqn).
Local Abbreviation main := (main optimizer_step use_target_dqn use_double_dqn).

(** The batch loop trains once per batch and leaves the exploration
    schedule, the target network and the store alone. *)
Lemma batch_loop_frame (batches : list (Batch Obs)) :
  forall st res st',
  batch_loop batches st = (res, st') ->
  target_net_model st' = target_net_model st /\
  epsilon st' = epsilon st /\
  lr st' = lr st /\
  exp_replay st' = exp_replay st /\
  exists nb, (nb <= length batches)%nat /\
    trace st' = trace st ++ replicate nb EvTrain /\
    (forall u, res = Ok u ->
       nb = length batches /\
       batches_count st' = (batches_count st + Z.of_nat (length batches))%Z).
Proof.
  induction batches as [|batch rest IH]; intros st res st' H; simpl in H.
  - injection H as <- <-. repeat split; auto.
    exists 0%nat. simpl. rewrite app_nil_r. repeat split; auto; lia.
  - destruct (batch_to_train _ _ batch st) as [[[states q_vals]|e] st1] eqn:Hb.
    + destruct (batch_to_train_frame _ _ _ _ _ _ Hb) as (Hm & Ht & He & Hl & Hx & Htr).
      apply batch_to_train_Ok in Hb as (_ & _ & s & _ & _ & _ & _ & Hst1).
      assert (Hcount : batches_count st1 = (batches_count st + 1)%Z)
        by (rewrite Hst1; reflexivity).
      destruct (optimizer_step (model st1) states q_vals) as [m|e].
      * destruct (IH _ _ _ H) as (Ht' & He' & Hl' & Hx' & nb & Hnb & Htr' & Hok).
        simpl in Ht', He', Hl', Hx', Htr'.
        repeat split; try congruence.
        exists (S nb). split; [simpl; lia|]. split.
        -- rewrite Htr', Htr, <- app_assoc. reflexivity.
        -- intros u Hu. destruct (Hok u Hu) as [-> Hc]. split; [reflexivity|].
           rewrite Hc. simpl batches_count. rewrite Hcount.
           simpl length. lia.
      * injection H as <- <-. repeat split; auto.
        exists 0%nat. simpl. rewrite app_nil_r. repeat split; try lia; auto.
        all: discriminate.
    + destruct (batch_to_train_frame _ _ _ _ _ _ Hb) as (Hm & Ht & He & Hl & Hx & Htr).
      injection H as <- <-. repeat split; auto.
      exists 0%nat. simpl. rewrite app_nil_r. repeat split; try lia; auto.
      all: discriminate.
Qed.

(** The value of epsilon after lines 202-205. *)
Lemma decay_epsilon_epsilon r st :
  epsilon (decay_epsilon r st) =
  match epsilon_minimum r with
  | Some floor => py_max floor (epsilon st * epsilon_decay r)%Q
  | None => (epsilon st * epsilon_decay r)%Q
  end.
Proof.
  unfold decay_epsilon. destruct (epsilon_minimum r); reflexivity.
Qed.

Lemma decay_epsilon_frame r st :
  model (decay_epsilon r st) = model st /\
  target_net_model (decay_epsilon r st) = target_net_model st /\
  batches_count (decay_epsilon r st) = batches_count st /\
  batches_sum_q0 (decay_epsilon r st) = batches_sum_q0 st /\
  batches_sum_total_reward (decay_epsilon r st) = batches_sum_total_reward st /\
  trace (decay_epsilon r st) = trace st ++ [EvDecay].
Proof.
  unfold decay_epsilon. destruct (epsilon_minimum r); simpl; auto 10.
Qed.

Lemma decay_lr_frame r st :
  model (decay_lr r st) = model st /\
  target_net_model (decay_lr r st) = target_net_model st /\
  epsilon (decay_lr r st) = epsilon st /\
  batches_count (decay_lr r st) = batches_count st /\
  batches_sum_q0 (decay_lr r st) = batches_sum_q0 st /\
  batches_sum_total_reward (decay_lr r st) = batches_sum_total_reward st /\
  trace (decay_lr r st) = trace st.
Proof.
  unfold decay_lr. destruct (lr_decay r); [destruct (lr_minimum r)|]; simpl; auto 10.
Qed.

Lemma log_running_sums_Ok st u st' :
  log_running_sums st = (Ok u, st') ->
  batches_count st <> 0%Z /\
  st' = set_batches_sum_q0 0%Q
          (set_batches_sum_total_reward 0%Q (set_batches_count 0%Z st)).
Proof.
  unfold log_running_sums, py_div.
  destruct (Z.eqb_spec (batches_count st) 0); [discriminate|].
  intros [= <-]. auto.
Qed.

Lemma log_running_sums_zero st :
  batches_count st = 0%Z ->
  log_running_sums st = (Raise ZeroDivisionError, st).
Proof.
  intros H. unfold log_running_sums, py_div. rewrite H. reflexivity.
Qed.

Lemma sync_due_Ok r idx b :
  sync_due r idx = Ok b <->
  copy_target_net_every_epoch r <> 0%Z /\
  b = (idx mod copy_target_net_every_epoch r =? 0)%Z.
Proof.
  unfold sync_due, py_mod.
  destruct (Z.eqb_spec (copy_target_net_every_epoch r) 0) as [Hz|Hz]; simpl; split.
  - discriminate.
  - intros [Hc _]. contradiction.
  - intros [= <-]. auto.
  - intros [_ ->]. reflexivity.
Qed.

(** An iteration that is not left by an exception has populated the
    store, trained on every sampled batch, decayed epsilon and the learning
    rate and reset the running sums; it then either breaks or performs the
    synchronisation check. *)
Lemma iteration_not_raised w idx st fl st' :
  iteration w idx st = (fl, st') ->
  (forall e, fl <> Raised e) ->
  exists emit batches st2 st4,
    emitted w = Ok emit /\
    sample_batches (learning_batch_size (run w)) (draws w)
      (populate (exp_buffer_populate (run w)) emit (exp_replay st)) = Ok batches /\
    batch_loop batches
      (set_exp_replay (populate (exp_buffer_populate (run w)) emit (exp_replay st)) st)
      = (Ok tt, st2) /\
    log_running_sums (decay_lr (run w) (decay_epsilon (run w) st2)) = (Ok tt, st4) /\
    ((fl = Break /\ report_break w idx = true /\ st' = st4) \/
     (fl = Next /\ report_break w idx = false /\
      exists b, sync_due (run w) idx = Ok b /\
                st' = if b then sync idx st4 else st4)).
Proof.
  unfold iteration. intros H Hfl.
  destruct (emitted w) as [emit|e]; [|injection H as <- _; edestruct Hfl; eauto].
  cbv zeta in H. simpl exp_replay in H.
  destruct (sample_batches _ _ _) as [batches|e] eqn:Hs;
    [|injection H as <- _; edestruct Hfl; eauto].
  destruct (batch_loop batches _) as [[[]|e] st2] eqn:Hbl;
    [|injection H as <- _; edestruct Hfl; eauto].
  destruct (log_running_sums _) as [[[]|e] st4] eqn:Hlog;
    [|injection H as <- _; edestruct Hfl; eauto].
  exists emit, batches, st2, st4. repeat split; auto.
  destruct (report_break w idx).
  - injection H as <- <-. left. auto.
  - destruct (save_due (run w) idx) as [sv|e];
      [|injection H as <- _; edestruct Hfl; eauto].
    destruct (sync_due (run w) idx) as [b|e];
      [|injection H as <- _; edestruct Hfl; eauto].
    right. destruct b; injection H as <- <-; eauto.
Qed.

(** The state such an iteration reaches before the break or the
    synchronisation check. *)
Lemma iteration_body_effects w (batches : list (Batch Obs)) st1 st2 st4 :
  batch_loop batches st1 = (Ok tt, st2) ->
  log_running_sums (decay_lr (run w) (decay_epsilon (run w) st2)) = (Ok tt, st4) ->
  trace st4 = trace st1 ++ replicate (length batches) EvTrain ++ [EvDecay] /\
  epsilon st4 = epsilon (decay_epsilon (run w) st1) /\
  target_net_model st4 = target_net_model st1 /\
  model st4 = model st2 /\
  batches_count st4 = 0%Z.
Proof.
  intros Hbl Hlog.
  destruct (batch_loop_frame _ _ _ _ Hbl) as (Ht & He & _ & _ & nb & _ & Htr & Hok).
  destruct (Hok tt eq_refl) as [-> _].
  apply log_running_sums_Ok in Hlog as [_ ->]. simpl.
  destruct (decay_lr_frame (run w) (decay_epsilon (run w) st2))
    as (Hm1 & Ht1 & He1 & _ & _ & _ & Htr1).
  destruct (decay_epsilon_frame (run w) st2) as (Hm2 & Ht2 & _ & _ & _ & Htr2).
  repeat split.
  - rewrite Htr1, Htr2, Htr, <- app_assoc. reflexivity.
  - rewrite He1, !decay_epsilon_epsilon, He. reflexivity.
  - congruence.
  - congruence.
Qed.

Lemma iteration_Next_batches_count w idx st st' :
  iteration w idx st = (Next, st') -> batches_count st' = 0%Z.
Proof.
  intros H.
  destruct (iteration_not_raised _ _ _ _ _ H)
    as (emit & batches & st2 & st4 & _ & _ & Hbl & Hlog & [[Hc _]|(_ & _ & b & _ & ->)]);
    [discriminate | discriminate |].
  destruct (iteration_body_effects _ _ _ _ _ Hbl Hlog) as (_ & _ & _ & _ & Hc).
  destruct b; simpl; exact Hc.
Qed.

(** An iteration that samples no batch starts its logging step with
    [batches_count = 0] and is left by the division of line 217. *)
Lemma iteration_zero_batches w idx st emit :
  batches_count st = 0%Z ->
  emitted w = Ok emit ->
  sample_batches (learning_batch_size (run w)) (draws w)
    (populate (exp_buffer_populate (run w)) emit (exp_replay st)) = Ok [] ->
  exists st', iteration w idx st = (Raised ZeroDivisionError, st').
Proof.
  intros Hc He Hs. unfold iteration. rewrite He. cbv zeta.
  simpl exp_replay. rewrite Hs. simpl batch_loop. cbv iota beta.
  rewrite log_running_sums_zero; [eauto|].
  destruct (decay_lr_frame (run w)
              (decay_epsilon (run w)
                 (set_exp_replay
                    (populate (exp_buffer_populate (run w)) emit (exp_replay st)) st)))
    as (_ & _ & _ & -> & _).
  destruct (decay_epsilon_frame (run w)
              (set_exp_replay
                 (populate (exp_buffer_populate (run w)) emit (exp_replay st)) st))
    as (_ & _ & -> & _).
  exact Hc.
Qed.

Lemma iteration_insufficient_data w idx st emit :
  emitted w = Ok emit ->
  (length (buffer (populate (exp_buffer_populate (run w)) emit (exp_replay st)))
   < min_required (populate (exp_buffer_populate (run w)) emit (exp_replay st)))%nat ->
  iteration w idx st =
  (Raised InsufficientDataError,
   set_exp_replay (populate (exp_buffer_populate (run w)) emit (exp_replay st)) st).
Proof.
  intros He Hlt. unfold iteration. rewrite He. cbv zeta. simpl exp_replay.
  rewrite sample_batches_insufficient by exact Hlt. reflexivity.
Qed.

(** *** The loop *)

Lemma training_loop_app (k m : nat) :
  forall idx world st,
  run_loop (k + m) idx world st =
  match run_loop k idx world st with
  | (Next, st_k) => run_loop m (idx + Z.of_nat k)%Z world st_k
  | res => res
  end.
Proof.
  induction k as [|k IH]; intros idx world st.
  - simpl. rewrite Z.add_0_r. reflexivity.
  - cbn [Nat.add training_loop].
    destruct (iteration (world idx) idx st) as [[| |e] st1]; try reflexivity.
    rewrite IH. replace (idx + 1 + Z.of_nat k)%Z with (idx + Z.of_nat (S k))%Z by lia.
    reflexivity.
Qed.

Lemma training_loop_Next_batches_count (k : nat) :
  forall idx world st st_k,
  batches_count st = 0%Z ->
  run_loop k idx world st = (Next, st_k) ->
  batches_count st_k = 0%Z.
Proof.
  induction k as [|k IH]; intros idx world st st_k Hc H; simpl in H.
  - injection H as <-. exact Hc.
  - destruct (iteration (world idx) idx st) as [[| |e] st1] eqn:Hit; try discriminate.
    eapply IH; [|exact H]. eapply iteration_Next_batches_count; eauto.
Qed.

(** A raise in the iteration reached after [k] completed ones ends the loop. *)
Lemma training_loop_raise (k n : nat) world st st_k e st' :
  run_loop k 0 world st = (Next, st_k) ->
  iteration (world (Z.of_nat k)) (Z.of_nat k) st_k = (Raised e, st') ->
  (k < n)%nat ->
  run_loop n 0 world st = (Raised e, st').
Proof.
  intros Hk Hit Hlt.
  replace n with (k + S (n - S k))%nat by lia.
  rewrite training_loop_app, Hk, Z.add_0_l. cbn [training_loop].
  rewrite Hit. reflexivity.
Qed.

Lemma close_all_trace (n : nat) st :
  trace (close_all n st) = trace st ++ map EvClose (seq 0 n).
Proof.
  unfold close_all. generalize 0%nat as start. revert st.
  induction n as [|n IH]; intros st start; simpl.
  - rewrite app_nil_r. reflexivity.
  - rewrite IH. simpl. rewrite <- app_assoc. reflexivity.
Qed.

Lemma decay_exp_replay r st :
  exp_replay (decay_lr r (decay_epsilon r st)) = exp_replay st.
Proof.
  unfold decay_lr, decay_epsilon.
  destruct (lr_decay r); [destruct (lr_minimum r)|];
    destruct (epsilon_minimum r); reflexivity.
Qed.

(** When the collaborators deliver and at least one batch is sampled, the
    iteration runs to its end unless the break is taken. *)
Lemma iteration_runs_to_end w idx st emit (batches : list (Batch Obs)) st2 sv :
  emitted w = Ok emit ->
  sample_batches (learning_batch_size (run w)) (draws w)
    (populate (exp_buffer_populate (run w)) emit (exp_replay st)) = Ok batches ->
  batch_loop batches
    (set_exp_replay (populate (exp_buffer_populate (run w)) emit (exp_replay st)) st)
    = (Ok tt, st2) ->
  batches_count st = 0%Z ->
  batches <> [] ->
  report_break w idx = false ->
  save_due (run w) idx = Ok sv ->
  copy_target_net_every_epoch (run w) <> 0%Z ->
  exists st',
    iteration w idx st = (Next, st') /\
    model st' = model st2 /\
    exp_replay st' = populate (exp_buffer_populate (run w)) emit (exp_replay st) /\
    batches_count st' = 0%Z.
Proof.
  intros He Hs Hbl Hc Hne Hrep Hsave Hcad.
  destruct (batch_loop_frame _ _ _ _ Hbl) as (_ & _ & _ & Hx & nb & _ & _ & Hok).
  destruct (Hok tt eq_refl) as [_ Hcount]. simpl in Hcount, Hx.
  assert (Hnz : batches_count (decay_lr (run w) (decay_epsilon (run w) st2)) <> 0%Z).
  { destruct (decay_lr_frame (run w) (decay_epsilon (run w) st2))
      as (_ & _ & _ & -> & _).
    destruct (decay_epsilon_frame (run w) st2) as (_ & _ & -> & _).
    rewrite Hcount, Hc. destruct batches; [congruence | simpl; lia]. }
  assert (Hlog : log_running_sums (decay_lr (run w) (decay_epsilon (run w) st2))
                 = (Ok tt,
                    set_batches_sum_q0 0%Q
                      (set_batches_sum_total_reward 0%Q
                         (set_batches_count 0%Z
                            (decay_lr (run w) (decay_epsilon (run w) st2)))))).
  { unfold log_running_sums, py_div.
    destruct (Z.eqb_spec (batches_count (decay_lr (run w) (decay_epsilon (run w) st2))) 0);
      [contradiction | reflexivity]. }
  assert (Hsync : sync_due (run w) idx
                  = Ok (idx mod copy_target_net_every_epoch (run w) =? 0)%Z)
    by (apply sync_due_Ok; auto).
  unfold iteration. rewrite He. cbv zeta. simpl exp_replay.
  rewrite Hs, Hbl, Hlog, Hrep, Hsave, Hsync.
  pose proof (decay_exp_replay (run w) st2) as Hx'.
  destruct (decay_lr_frame (run w) (decay_epsilon (run w) st2)) as (Hm1 & _).
  destruct (decay_epsilon_frame (run w) st2) as (Hm2 & _).
  destruct (idx mod copy_target_net_every_epoch (run w) =? 0)%Z;
    eexists; (split; [reflexivity|]); simpl; repeat split; congruence.
Qed.

(** A loop all of whose iterations run to their end exhausts its range. *)
Lemma training_loop_completes (I : State Obs -> Prop) world :
  (forall idx s, I s -> exists s', iteration (world idx) idx s = (Next, s') /\ I s') ->
  forall n idx st, I st -> exists st', run_loop n idx world st = (Next, st') /\ I st'.
Proof.
  intros Hstep. induction n as [|n IH]; intros idx st HI; simpl.
  - eauto.
  - destruct (Hstep idx st HI) as (s' & -> & HI'). apply IH, HI'.
Qed.

Lemma ITERATIONS_pos : (0 < ITERATIONS)%nat.
Proof.
  change ITERATIONS with (Z.to_nat 10000). lia.
Qed.

Lemma main_unfold (pool : nat) world st :
  main pool world st =
  (fst (run_loop ITERATIONS 0 world st),
   close_all pool (snd (run_loop ITERATIONS 0 world st))).
Proof.
  unfold main. destruct (run_loop _ _ _ _). reflexivity.
Qed.

(** C3: when, after [populate], the store holds fewer chains than the
    configured minimum, the sampling of that iteration raises
    [InsufficientDataError], which ends the loop and the run; and whenever
    the sampling succeeds it yields floor(size / batch_size) batches of
    exactly batch_size chains each, never a shorter batch. *)
Theorem C3_sampling_below_minimum_raises_InsufficientDataError
    world st0 (k : nat) st emit :
  run_loop k 0 world st0 = (Next, st) ->
  emitted (world (Z.of_nat k)) = Ok emit ->
  let w := world (Z.of_nat k) in
  let store := populate (exp_buffer_populate (run w)) emit (exp_replay st) in
  ((length (buffer store) < min_required store)%nat ->
   iteration w (Z.of_nat k) st
     = (Raised InsufficientDataError, set_exp_replay store st) /\
   (forall n, (k < n)%nat ->
      run_loop n 0 world st0
        = (Raised InsufficientDataError, set_exp_replay store st)) /\
   (forall pool, (k < ITERATIONS)%nat ->
      fst (main pool world st0) = Raised InsufficientDataError)) /\
  (forall batches,
     sample_batches (learning_batch_size (run w)) (draws w) store = Ok batches ->
     (min_required store <= length (buffer store))%nat /\
     length batches = (length (buffer store) / learning_batch_size (run w))%nat /\
     Forall (fun batch => length batch = learning_batch_size (run w)) batches).
Proof.
  intros Hk He w store. split.
  - intros Hlt.
    pose proof (iteration_insufficient_data w (Z.of_nat k) st emit He Hlt) as Hit.
    split; [exact Hit|]. split.
    + intros n Hn. eapply training_loop_raise; eauto.
    + intros pool Hn. rewrite main_unfold. simpl fst.
      erewrite training_loop_raise; eauto.
  - intros batches Hs. apply sample_batches_Ok in Hs. exact Hs.
Qed.

(** C4 (as amended): an outer iteration that is not left by an exception
    either runs to its end or is left by the [break] of line 240.  When it
    runs to its end it calls [target_net.sync()] exactly when its index is
    a multiple of the configured cadence; the sync makes the target network
    a copy of the online network, and without it the target network is
    left as it was; index 0 is a multiple of every cadence, so an
    iteration of index 0 that runs to its end synchronises.  When it is
    left by the [break], which the report check takes before the cadence
    check, it calls no sync and leaves the target network as it was,
    whatever its index. *)
Theorem C4_sync_exactly_on_multiples_of_cadence w idx st fl st' :
  iteration w idx st = (fl, st') ->
  (forall e, fl <> Raised e) ->
  let cadence := copy_target_net_every_epoch (run w) in
  exists nb sync_calls,
    trace st' = trace st ++ replicate nb EvTrain ++ [EvDecay] ++ sync_calls /\
    (fl = Break ->
       report_break w idx = true /\
       sync_calls = [] /\ target_net_model st' = target_net_model st) /\
    (fl = Next ->
       report_break w idx = false /\
       cadence <> 0%Z /\
       sync_due (run w) idx = Ok (idx mod cadence =? 0)%Z /\
       ((idx mod cadence = 0)%Z ->
          sync_calls = [EvSync idx] /\ target_net_model st' = model st') /\
       ((idx mod cadence <> 0)%Z ->
          sync_calls = [] /\ target_net_model st' = target_net_model st) /\
       (idx = 0%Z -> sync_calls = [EvSync 0%Z] /\ target_net_model st' = model st')).
Proof.
  intros H Hnr cadence.
  destruct (iteration_not_raised _ _ _ _ _ H Hnr)
    as (emit & batches & st2 & st4 & _ & _ & Hbl & Hlog & Hend).
  destruct (iteration_body_effects _ _ _ _ _ Hbl Hlog) as (Htr & _ & Ht & _ & _).
  simpl trace in Htr. simpl target_net_model in Ht.
  destruct Hend as [(-> & Hrep & ->)|(-> & Hrep & b & Hb & ->)].
  - exists (length batches), []. rewrite Htr.
    split; [reflexivity|]. split; [auto | discriminate].
  - pose proof Hb as Hb'. apply sync_due_Ok in Hb' as [Hc ->]. fold cadence in Hb |- *.
    exists (length batches), (if (idx mod cadence =? 0)%Z then [EvSync idx] else []).
    assert (Hzero : idx = 0%Z -> (idx mod cadence =? 0)%Z = true).
    { intros ->. rewrite Z.mod_0_l by exact Hc. reflexivity. }
    destruct (Z.eqb_spec (idx mod cadence) 0) as [Hm|Hm].
    + simpl. rewrite Htr, <- !app_assoc. simpl.
      split; [reflexivity|]. split; [discriminate|]. intros _.
      split; [exact Hrep|]. split; [exact Hc|]. split; [exact Hb|].
      split; [auto|]. split; [intros Hn; contradiction|].
      intros ->. auto.
    + rewrite Htr. simpl.
      split; [reflexivity|]. split; [discriminate|]. intros _.
      split; [exact Hrep|]. split; [exact Hc|]. split; [exact Hb|].
      split; [intros Hn; contradiction|]. split; [auto|].
      intros Hi. specialize (Hzero Hi). discriminate.
Qed.

(** C5 (as amended): with a floor [f] configured, a decay rate [d >= 0]
    and an initial epsilon [e0 >= f], epsilon after [k] decay steps equals
    max(f, e0·d^k); if moreover [e0 >= 0] and [d <= 1] the sequence never
    increases.  In every outer iteration that is not left by an exception
    the decay is applied exactly once, after the batch loop, which itself
    leaves epsilon alone: epsilon after the iteration is one decay step
    from epsilon before it. *)
Theorem C5_epsilon_schedule r (f : Q) st :
  epsilon_minimum r = Some f ->
  (0 <= epsilon_decay r)%Q ->
  (f <= epsilon st)%Q ->
  (forall k,
     (epsilon (Nat.iter k (decay_epsilon r) st)
      == py_max f (epsilon st * epsilon_decay r ^ Z.of_nat k))%Q) /\
  ((0 <= epsilon st)%Q -> (epsilon_decay r <= 1)%Q ->
   forall k,
     (epsilon (Nat.iter (S k) (decay_epsilon r) st)
      <= epsilon (Nat.iter k (decay_epsilon r) st))%Q) /\
  (forall w idx s fl s',
     run w = r ->
     iteration w idx s = (fl, s') ->
     (forall e, fl <> Raised e) ->
     epsilon s' = py_max f (epsilon s * epsilon_decay r)%Q /\
     exists nb sync_calls,
       trace s' = trace s ++ replicate nb EvTrain ++ [EvDecay] ++ sync_calls /\
       (EvDecay ∉ replicate nb EvTrain) /\ (EvDecay ∉ sync_calls)) /\
  (forall batches s res s',
     batch_loop batches s = (res, s') ->
     epsilon s' = epsilon s /\
     exists nb, trace s' = trace s ++ replicate nb EvTrain).
Proof.
  intros Hf Hd Hfe. split; [|split; [|split]].
  - intros k.
    assert (Hstep : forall s, epsilon (decay_epsilon r s)
                              = py_max f (epsilon s * epsilon_decay r)%Q).
    { intros s. rewrite decay_epsilon_epsilon, Hf. reflexivity. }
    induction k as [|k IH].
    + change (Nat.iter 0 (decay_epsilon r) st) with st.
      change (epsilon_decay r ^ Z.of_nat 0)%Q with 1%Q.
      destruct (py_max_spec f (epsilon st * 1)) as [[H1 ->]|[H1 ->]]; lra.
    + rewrite Nat.iter_succ, Hstep.
      destruct (Qpower_nat_bounds (epsilon_decay r) k Hd) as (Hp & Hp1 & Hp2).
      rewrite (clamped_decay_step f (epsilon st) (epsilon_decay r)
                 (epsilon_decay r ^ Z.of_nat k) _ Hd Hfe Hp Hp1 Hp2 IH).
      apply py_max_Qeq. rewrite Qpower_succ_nat. reflexivity.
  - intros He0 Hd1 k.
    assert (Hinv : forall j, (f <= epsilon (Nat.iter j (decay_epsilon r) st)
                              /\ 0 <= epsilon (Nat.iter j (decay_epsilon r) st))%Q).
    { induction j as [|j [IH1 IH2]]; [simpl; split; assumption|].
      rewrite Nat.iter_succ, decay_epsilon_epsilon, Hf.
      destruct (py_max_spec f (epsilon (Nat.iter j (decay_epsilon r) st) * epsilon_decay r))
        as [[H1 ->]|[H1 ->]]; split; nra. }
    destruct (Hinv k) as [H1 H2].
    rewrite Nat.iter_succ, decay_epsilon_epsilon, Hf.
    destruct (py_max_spec f (epsilon (Nat.iter k (decay_epsilon r) st) * epsilon_decay r))
      as [[H3 ->]|[H3 ->]]; nra.
  - intros w idx s fl s' Hw Hit Hfl.
    destruct (iteration_not_raised _ _ _ _ _ Hit Hfl)
      as (emit & batches & st2 & st4 & _ & _ & Hbl & Hlog & Hend).
    destruct (iteration_body_effects _ _ _ _ _ Hbl Hlog) as (Htr & He & _ & _ & _).
    simpl trace in Htr. rewrite decay_epsilon_epsilon, Hw, Hf in He. simpl in He.
    assert (Hno : EvDecay ∉ replicate (length batches) EvTrain).
    { intros Hin. apply elem_of_replicate in Hin as [Hin _]. discriminate. }
    destruct Hend as [(_ & _ & ->)|(_ & _ & b & _ & ->)].
    + split; [exact He|]. exists (length batches), []. rewrite Htr.
      repeat split; auto. apply not_elem_of_nil.
    + destruct b; simpl; (split; [exact He|]).
      * exists (length batches), [EvSync idx]. rewrite Htr, <- !app_assoc.
        repeat split; auto. intros Hin. apply list_elem_of_singleton in Hin. discriminate.
      * exists (length batches), []. rewrite Htr. repeat split; auto.
        apply not_elem_of_nil.
  - intros batches s res s' Hbl.
    destruct (batch_loop_frame _ _ _ _ Hbl) as (_ & He & _ & _ & nb & _ & Htr & _).
    split; [exact He|]. exists nb. exact Htr.
Qed.

(** C8: however the loop is left (its range exhausted, the break on the
    mean-reward bound, or an exception), the [finally] block calls
    [close()] on every environment of the pool, in order, as the last
    calls of the run. *)
Theorem C8_finally_closes_every_environment
    (pool : nat) world st fl st' (i : nat) :
  main pool world st = (fl, st') ->
  (i < pool)%nat ->
  EvClose i ∈ trace st' /\
  exists st_loop,
    run_loop ITERATIONS 0 world st = (fl, st_loop) /\
    trace st' = trace st_loop ++ map EvClose (seq 0 pool).
Proof.
  intros H Hi. rewrite main_unfold in H.
  destruct (run_loop ITERATIONS 0 world st) as [fl0 st_loop] eqn:Hloop.
  simpl in H. injection H as <- <-.
  rewrite close_all_trace. split.
  - apply elem_of_app. right. apply list_elem_of_fmap.
    exists i. split; [reflexivity|]. apply elem_of_seq. lia.
  - exists st_loop. auto.
Qed.

(** C10: an outer iteration whose sampling yields no batch never calls
    [batch_to_train], so [batches_count] is still 0 when the logging step
    divides the running sums by it: the iteration, the loop and the run
    are left by [ZeroDivisionError]. *)
Theorem C10_zero_batches_raise_ZeroDivisionError
    world st0 (k : nat) st emit :
  batches_count st0 = 0%Z ->
  run_loop k 0 world st0 = (Next, st) ->
  let w := world (Z.of_nat k) in
  emitted w = Ok emit ->
  sample_batches (learning_batch_size (run w)) (draws w)
    (populate (exp_buffer_populate (run w)) emit (exp_replay st)) = Ok [] ->
  exists st',
    iteration w (Z.of_nat k) st = (Raised ZeroDivisionError, st') /\
    (forall n, (k < n)%nat ->
       run_loop n 0 world st0 = (Raised ZeroDivisionError, st')) /\
    (forall pool, (k < ITERATIONS)%nat ->
       fst (main pool world st0) = Raised ZeroDivisionError).
Proof.
  intros Hc0 Hk w He Hs.
  assert (Hc : batches_count st = 0%Z)
    by (eapply training_loop_Next_batches_count; eauto).
  destruct (iteration_zero_batches w (Z.of_nat k) st emit Hc He Hs) as [st' Hit].
  exists st'. split; [exact Hit|]. split.
  - intros n Hn. eapply training_loop_raise; eauto.
  - intros pool Hn. rewrite main_unfold. simpl fst.
    erewrite training_loop_raise; eauto.
Qed.

End Loop.

(** ** The claims on concrete inputs *)

(** Closed comparisons of rationals, by evaluation. *)
Ltac decide_Q := intros H; vm_compute in H; discriminate H.
Ltac prove_Qle := vm_compute; discriminate.
Ltac refute_Qle := intros H; vm_compute in H; apply H; reflexivity.

(** C1, counterexample: a chain of length 1 with [done] set and reward 1
    gets the target 0 at the taken action, not 1; and the non-terminal
    chain with the rewards 1, 2, 3, whose bootstrap value is 6, gets
    [1 + γ·(2 + γ·6)], not the backup over all three rewards (in a batch
    of two chains, whose array of bootstrap values can be indexed). *)
Lemma C1_counterexample_last_reward_is_dropped :
  (exists row st',
     batch_to_train false false [ex_terminal_chain] ex_state
       = (Ok ([0%nat], [row]), st') /\
     row !! 1%nat = Some 0%Q /\
     ~ (0 == 1)%Q /\
     ~ (0 == discounted_return_spec [1%Q] 0)%Q) /\
  (exists row row' st',
     batch_to_train false false ex_batch ex_state
       = (Ok ([0%nat; 0%nat], [row; row']), st') /\
     total_rewards_of false false ex_state [2%nat; 0%nat] = Ok [6%Q; 3%Q] /\
     row !! 1%nat = Some (discounted_return_spec [1; 2]%Q 6) /\
     ~ (discounted_return_spec [1; 2]%Q 6
        == discounted_return_spec [1; 2; 3]%Q 6)%Q).
Proof.
  split.
  - exists [1; 0; 2]%Q, (snd (batch_to_train false false [ex_terminal_chain] ex_state)).
    split; [vm_compute; reflexivity|]. split; [reflexivity|].
    split; decide_Q.
  - exists [1; discounted_return_spec [1; 2] 6; 2]%Q, [1; 0; 2]%Q,
      (snd (batch_to_train false false ex_batch ex_state)).
    split; [vm_compute; reflexivity|]. split; [reflexivity|].
    split; [reflexivity | decide_Q].
Qed.

Lemma C1_target_is_backup_over_all_but_last_reward_witness :
  batch_to_train true true ex_batch ex_state
    = (Ok ([0%nat; 0%nat],
           [[1; discounted_return_spec [1; 2] 4; 2]; [1; 0; 2]]%Q),
       snd (batch_to_train true true ex_batch ex_state)) /\
  ex_batch !! 0%nat = Some ex_chain3 /\
  ex_chain3 !! 0%nat = Some (mkExperience 0%nat 1%nat 1%Q false) /\
  last ex_chain3 = Some (mkExperience 2%nat 2%nat 3%Q false) /\
  exists vL_data total_rewards V row,
    collect_states ex_batch = Ok ([0%nat; 0%nat], vL_data) /\
    total_rewards_of true true ex_state vL_data = Ok total_rewards /\
    total_rewards !! 0%nat = Some V /\
    [[1; discounted_return_spec [1; 2] 4; 2]; [1; 0; 2]]%Q !! 0%nat = Some row /\
    row !! 1%nat = Some (discounted_return_spec [1; 2]%Q V) /\
    (length ex_chain3 = 1%nat -> row !! 1%nat = Some V).
Proof.
  assert (H : batch_to_train true true ex_batch ex_state
              = (Ok ([0%nat; 0%nat],
                     [[1; discounted_return_spec [1; 2] 4; 2]; [1; 0; 2]]%Q),
                 snd (batch_to_train true true ex_batch ex_state)))
    by (vm_compute; reflexivity).
  split; [exact H|]. split; [reflexivity|]. split; [reflexivity|].
  split; [reflexivity|].
  exact (C1_target_is_backup_over_all_but_last_reward true true ex_batch ex_state
           _ _ _ 0%nat ex_chain3 (mkExperience 0%nat 1%nat 1%Q false)
           (mkExperience 2%nat 2%nat 3%Q false) H eq_refl eq_refl eq_refl).
Defined.

(** C2, counterexample: when the target network is a copy of the online
    network, as it is after every synchronisation, the double-mode
    bootstrap value is the online network's own maximum.  So it is in the
    state reached by the first iteration of the example run, which trains
    once and then synchronises (value 31/10 on state 0), and in the example
    state with the target network replaced by the online one (value 3). *)
Lemma C2_counterexample_synced_networks :
  (let res := iteration ex_optimizer_step true true (ex_world 0%Z) 0%Z ex_state in
   fst res = Next /\
   total_rewards_of true true (snd res) [0%nat] = Ok [(31 # 10)%Q] /\
   row_max (model (snd res) 0%nat) = Ok ((31 # 10)%Q, 1%nat)) /\
  total_rewards_of true true ex_synced_state [0%nat] = Ok [3%Q] /\
  row_max (model ex_synced_state 0%nat) = Ok (3%Q, 1%nat).
Proof.
  split; [|split; reflexivity].
  vm_compute. auto.
Qed.

Lemma C2_double_bootstrap_is_target_at_online_argmax_witness :
  total_rewards_of true true ex_state [0%nat; 1%nat; 2%nat] = Ok [1; 8; 4]%Q /\
  [0%nat; 1%nat; 2%nat] !! 1%nat = Some 1%nat /\
  exists vmax a v,
    row_max (model ex_state 1%nat) = Ok (vmax, a) /\
    model ex_state 1%nat !! a = Some vmax /\
    (forall j q, model ex_state 1%nat !! j = Some q -> (q <= vmax)%Q) /\
    target_net_model ex_state 1%nat !! a = Some v /\
    [1; 8; 4]%Q !! 1%nat = Some v /\
    ((v == vmax)%Q <->
     exists t q, target_net_model ex_state 1%nat !! a = Some t /\
                 model ex_state 1%nat !! a = Some q /\ (t == q)%Q).
Proof.
  split; [reflexivity|]. split; [reflexivity|].
  exact (C2_double_bootstrap_is_target_at_online_argmax ex_state
           [0%nat; 1%nat; 2%nat] [1; 8; 4]%Q 1%nat 1%nat eq_refl eq_refl).
Defined.

(** C6, counterexample: one call of [batch_to_train] changes the
    module-level variable [batches_count] from 0 to 1, and adds the mean of
    the online outputs to [batches_sum_q0]. *)
Lemma C6_counterexample_running_sums_are_modified :
  batches_count ex_state = 0%Z /\
  batches_count (snd (batch_to_train false false ex_batch ex_state)) = 1%Z /\
  snd (batch_to_train false false ex_batch ex_state) <> ex_state /\
  ~ (batches_sum_q0 (snd (batch_to_train false false ex_batch ex_state))
     == batches_sum_q0 ex_state)%Q.
Proof.
  split; [reflexivity|]. split; [reflexivity|]. split.
  - intros H. apply (f_equal batches_count) in H. vm_compute in H. discriminate H.
  - decide_Q.
Qed.

Lemma C6_batch_to_train_changes_only_the_running_sums_witness :
  batch_to_train false false ex_batch ex_state
    = (Ok ([0%nat; 0%nat],
           [[1; discounted_return_spec [1; 2] 6; 2]; [1; 0; 2]]%Q),
       snd (batch_to_train false false ex_batch ex_state)) /\
  model (snd (batch_to_train false false ex_batch ex_state)) = model ex_state /\
  epsilon (snd (batch_to_train false false ex_batch ex_state)) = epsilon ex_state /\
  trace (snd (batch_to_train false false ex_batch ex_state)) = trace ex_state /\
  batches_count (snd (batch_to_train false false ex_batch ex_state))
    = (batches_count ex_state + 1)%Z.
Proof.
  assert (H : batch_to_train false false ex_batch ex_state
              = (Ok ([0%nat; 0%nat],
                     [[1; discounted_return_spec [1; 2] 6; 2]; [1; 0; 2]]%Q),
                 snd (batch_to_train false false ex_batch ex_state)))
    by (vm_compute; reflexivity).
  split; [exact H|].
  destruct (C6_batch_to_train_changes_only_the_running_sums
              false false ex_batch ex_state _ _ H)
    as (Hm & _ & He & _ & _ & Ht & Hsums).
  destruct (Hsums _ _ eq_refl) as (Hc & _).
  auto.
Defined.

Lemma C7_target_row_is_online_row_with_taken_entry_replaced_witness :
  batch_to_train false false ex_batch ex_state
    = (Ok ([0%nat; 0%nat],
           [[1; discounted_return_spec [1; 2] 6; 2]; [1; 0; 2]]%Q),
       snd (batch_to_train false false ex_batch ex_state)) /\
  ex_batch !! 1%nat = Some ex_terminal_chain /\
  ex_terminal_chain !! 0%nat = Some (mkExperience 0%nat 1%nat 1%Q true) /\
  exists seed row,
    [[1; discounted_return_spec [1; 2] 6; 2]; [1; 0; 2]]%Q !! 1%nat = Some row /\
    row = <[1%nat := backup ex_terminal_chain seed]> (ex_model 0%nat) /\
    (forall a, a <> 1%nat -> row !! a = ex_model 0%nat !! a).
Proof.
  assert (H : batch_to_train false false ex_batch ex_state
              = (Ok ([0%nat; 0%nat],
                     [[1; discounted_return_spec [1; 2] 6; 2]; [1; 0; 2]]%Q),
                 snd (batch_to_train false false ex_batch ex_state)))
    by (vm_compute; reflexivity).
  split; [exact H|]. split; [reflexivity|]. split; [reflexivity|].
  destruct (C7_target_row_is_online_row_with_taken_entry_replaced
              false false ex_batch ex_state _ _ _ 1%nat ex_terminal_chain
              (mkExperience 0%nat 1%nat 1%Q true) H eq_refl eq_refl)
    as (vL & tr & eL & seed & row & _ & Hrow & Heq & _ & _ & Hother & _).
  exists seed, row. auto.
Defined.

Lemma C3_sampling_below_minimum_raises_InsufficientDataError_witness :
  training_loop ex_optimizer_step false false 0 0 ex_world ex_state_min5
    = (Next, ex_state_min5) /\
  emitted (ex_world (Z.of_nat 0)) = Ok (fun _ => ex_chain3) /\
  iteration ex_optimizer_step false false (ex_world 0%Z) 0%Z ex_state_min5
    = (Raised InsufficientDataError,
       set_exp_replay (mkReplayStore 8 5 [ex_chain3; ex_chain3]) ex_state_min5) /\
  fst (main ex_optimizer_step false false 2 ex_world ex_state_min5)
    = Raised InsufficientDataError.
Proof.
  split; [reflexivity|]. split; [reflexivity|].
  destruct (C3_sampling_below_minimum_raises_InsufficientDataError
              ex_optimizer_step false false ex_world ex_state_min5 0%nat
              ex_state_min5 (fun _ => ex_chain3) eq_refl eq_refl) as [Hraise _].
  destruct Hraise as (Hit & _ & Hmain); [vm_compute; lia|].
  split; [exact Hit|]. apply Hmain, ITERATIONS_pos.
Defined.

(** C4, counterexample: in the run whose mean reward reaches the stop bound
    at the first report, the iteration of index 0 trains, decays epsilon
    and is left by the [break]: although 0 is a multiple of the cadence 3,
    [target_net.sync()] is not called and the target network is not a copy
    of the online network. *)
Lemma C4_counterexample_break_iteration_skips_sync :
  let res := iteration ex_optimizer_step true true (ex_world_break 0%Z) 0%Z ex_state in
  fst res = Break /\
  copy_target_net_every_epoch (run (ex_world_break 0%Z)) = 3%Z /\
  (0 mod 3 = 0)%Z /\
  sync_due (run (ex_world_break 0%Z)) 0%Z = Ok true /\
  trace (snd res) = [EvTrain; EvDecay] /\
  ~ EvSync 0%Z ∈ trace (snd res) /\
  target_net_model (snd res) 0%nat = [7; 1; 9]%Q /\
  model (snd res) 0%nat = [11 # 10; 31 # 10; 21 # 10]%Q /\
  target_net_model (snd res) 0%nat <> model (snd res) 0%nat.
Proof.
  assert (Htr : trace (snd (iteration ex_optimizer_step true true (ex_world_break 0%Z)
                              0%Z ex_state)) = [EvTrain; EvDecay])
    by (vm_compute; reflexivity).
  cbv zeta.
  split; [vm_compute; reflexivity|]. split; [reflexivity|]. split; [reflexivity|].
  split; [reflexivity|]. split; [exact Htr|]. split.
  - rewrite Htr. intros Hin.
    apply elem_of_cons in Hin as [Hin|Hin]; [discriminate|].
    apply list_elem_of_singleton in Hin. discriminate.
  - split; [vm_compute; reflexivity|]. split; [vm_compute; reflexivity|].
    vm_compute. discriminate.
Qed.

Lemma C4_sync_exactly_on_multiples_of_cadence_witness :
  iteration ex_optimizer_step true true (ex_world 0%Z) 0%Z ex_state
    = (Next, snd (iteration ex_optimizer_step true true (ex_world 0%Z) 0%Z ex_state)) /\
  (forall e, Next <> Raised e) /\
  trace (snd (iteration ex_optimizer_step true true (ex_world 0%Z) 0%Z ex_state))
    = [EvTrain; EvDecay; EvSync 0%Z] /\
  sync_due ex_run 0%Z = Ok true.
Proof.
  assert (H : iteration ex_optimizer_step true true (ex_world 0%Z) 0%Z ex_state
              = (Next, snd (iteration ex_optimizer_step true true (ex_world 0%Z) 0%Z
                              ex_state)))
    by (vm_compute; reflexivity).
  assert (Hnr : forall e, Next <> Raised e) by (intros e; discriminate).
  split; [exact H|]. split; [exact Hnr|].
  destruct (C4_sync_exactly_on_multiples_of_cadence
              ex_optimizer_step true true (ex_world 0%Z) 0%Z ex_state _ _ H Hnr)
    as (nb & sync_calls & _ & _ & Hnext).
  destruct (Hnext eq_refl) as (_ & _ & Hdue & _).
  split; [reflexivity | exact Hdue].
Defined.

(** An iteration whose index is not a multiple of the cadence 3 leaves the
    target network as it was. *)
Lemma ex_iteration_without_sync :
  let res := iteration ex_optimizer_step true true (ex_world 1%Z) 1%Z ex_state in
  fst res = Next /\
  trace (snd res) = [EvTrain; EvDecay] /\
  target_net_model (snd res) 0%nat = ex_target_model 0%nat.
Proof.
  vm_compute. auto.
Qed.

(** C5, counterexample: (1) with the floor 1/10 above the initial epsilon
    1/20 and the rate 99/100, epsilon after 0 decay steps is not
    max(f, e0·d^0), and the first decay step raises epsilon to 1/10; (2)
    with the rate -1, initial epsilon 1 and floor 0, two decay steps give 0,
    not max(0, 1·(-1)^2) = 1; (3) with the rate 1/2, the negative initial
    epsilon -1 and the floor -2, the first decay step raises epsilon. *)
Lemma C5_counterexample_epsilon_schedule :
  (let r := ex_run_decay (99 # 100) (1 # 10) in
   let st := set_epsilon (1 # 20) ex_state in
   ~ (epsilon (Nat.iter 0 (decay_epsilon r) st)
      == py_max (1 # 10) (epsilon st * epsilon_decay r ^ Z.of_nat 0))%Q /\
   (epsilon_decay r <= 1)%Q /\
   ~ (epsilon (Nat.iter 1 (decay_epsilon r) st)
      <= epsilon (Nat.iter 0 (decay_epsilon r) st))%Q) /\
  (let r := ex_run_decay (-1) 0 in
   let st := set_epsilon 1 ex_state in
   ~ (epsilon (Nat.iter 2 (decay_epsilon r) st)
      == py_max 0 (epsilon st * epsilon_decay r ^ Z.of_nat 2))%Q) /\
  (let r := ex_run_decay (1 # 2) (-2) in
   let st := set_epsilon (-1) ex_state in
   (epsilon_decay r <= 1)%Q /\
   ~ (epsilon (Nat.iter 1 (decay_epsilon r) st)
      <= epsilon (Nat.iter 0 (decay_epsilon r) st))%Q).
Proof.
  cbv zeta. split; [|split].
  - split; [decide_Q|]. split; [prove_Qle | refute_Qle].
  - decide_Q.
  - split; [prove_Qle | refute_Qle].
Qed.

Lemma C5_epsilon_schedule_witness :
  epsilon_minimum ex_run = Some (1 # 10)%Q /\
  (0 <= epsilon_decay ex_run)%Q /\
  ((1 # 10) <= epsilon ex_state)%Q /\
  (epsilon (Nat.iter 2 (decay_epsilon ex_run) ex_state)
   == py_max (1 # 10) (epsilon ex_state * epsilon_decay ex_run ^ Z.of_nat 2))%Q /\
  (epsilon (Nat.iter 3 (decay_epsilon ex_run) ex_state)
   <= epsilon (Nat.iter 2 (decay_epsilon ex_run) ex_state))%Q.
Proof.
  assert (H1 : (0 <= epsilon_decay ex_run)%Q) by prove_Qle.
  assert (H2 : ((1 # 10) <= epsilon ex_state)%Q) by prove_Qle.
  split; [reflexivity|]. split; [exact H1|]. split; [exact H2|].
  destruct (C5_epsilon_schedule ex_optimizer_step false false ex_run (1 # 10)%Q
              ex_state eq_refl H1 H2) as (Hclosed & Hmono & _).
  split; [apply Hclosed|].
  apply Hmono; prove_Qle.
Defined.

Lemma C8_finally_closes_every_environment_witness :
  main ex_optimizer_step true true 2 ex_world_break ex_state
    = (Break, snd (main ex_optimizer_step true true 2 ex_world_break ex_state)) /\
  (1 < 2)%nat /\
  EvClose 1 ∈ trace (snd (main ex_optimizer_step true true 2 ex_world_break ex_state)) /\
  trace (snd (main ex_optimizer_step true true 2 ex_world_break ex_state))
    = [EvTrain; EvDecay; EvClose 0; EvClose 1].
Proof.
  assert (H : main ex_optimizer_step true true 2 ex_world_break ex_state
              = (Break, snd (main ex_optimizer_step true true 2 ex_world_break ex_state)))
    by (vm_compute; reflexivity).
  assert (Hlt : (1 < 2)%nat) by lia.
  split; [exact H|]. split; [exact Hlt|].
  destruct (C8_finally_closes_every_environment ex_optimizer_step true true
              2 ex_world_break ex_state _ _ 1%nat H Hlt) as [Hin _].
  split; [exact Hin|]. vm_compute. reflexivity.
Defined.

(** The three ways of leaving the loop all occur, and the environments are
    closed in each: the break of line 240, an exception (here a failing
    environment), and the exhausted range of 10000 iterations. *)
Lemma ex_main_break :
  let res := main ex_optimizer_step true true 2 ex_world_break ex_state in
  fst res = Break /\ trace (snd res) = [EvTrain; EvDecay; EvClose 0; EvClose 1].
Proof.
  vm_compute. auto.
Qed.

Lemma ex_main_exception :
  let res := main ex_optimizer_step true true 2 ex_world_env_failure ex_state in
  fst res = Raised EnvironmentFailureError /\
  trace (snd res) = [EvClose 0; EvClose 1].
Proof.
  vm_compute. auto.
Qed.

Lemma ex_iteration_runs_to_end (idx : Z) (s : State nat) :
  model s = ex_model ->
  batches_count s = 0%Z ->
  exp_replay s = mkReplayStore 2 1 [] \/
  exp_replay s = mkReplayStore 2 1 [ex_chain3; ex_chain3] ->
  exists s',
    iteration ex_frozen_optimizer_step false false (ex_world idx) idx s = (Next, s') /\
    model s' = ex_model /\
    batches_count s' = 0%Z /\
    exp_replay s' = mkReplayStore 2 1 [ex_chain3; ex_chain3].
Proof.
  intros Hm Hc Hx.
  assert (Hpop : populate 2 (fun _ => ex_chain3) (exp_replay s)
                 = mkReplayStore 2 1 [ex_chain3; ex_chain3])
    by (destruct Hx as [-> | ->]; reflexivity).
  destruct (batch_loop ex_frozen_optimizer_step false false [[ex_chain3; ex_chain3]]
              (set_exp_replay (mkReplayStore 2 1 [ex_chain3; ex_chain3]) s))
    as [res st2] eqn:Hbl.
  assert (Hres : res = Ok tt /\ model st2 = ex_model).
  { destruct s as [m t e l x c q1 q2 tr]. simpl in Hm, Hc. subst m c.
    split.
    - apply (f_equal fst) in Hbl. vm_compute in Hbl. congruence.
    - apply (f_equal (fun p => model (snd p))) in Hbl. vm_compute in Hbl.
      exact (eq_sym Hbl). }
  destruct Hres as [-> Hm2].
  assert (Hsave : save_due ex_run idx = Ok false)
    by (unfold save_due; destruct (0 <? idx)%Z; reflexivity).
  assert (Hrep : report_break (ex_world idx) idx = false)
    by (unfold report_break; destruct (idx mod REPORT_ITERS =? 0)%Z; reflexivity).
  destruct (iteration_runs_to_end ex_frozen_optimizer_step false false
              (ex_world idx) idx s (fun _ => ex_chain3)
              [[ex_chain3; ex_chain3]] st2 false) as (s' & Hit & Hm' & Hx' & Hc');
    try reflexivity; try assumption.
  - simpl. rewrite Hpop. reflexivity.
  - simpl. rewrite Hpop. exact Hbl.
  - discriminate.
  - discriminate.
  - exists s'. simpl in Hx'. rewrite Hpop in Hx'. repeat split; congruence.
Qed.

(** The loop over the example world exhausts its range of 10000
    iterations, and the environments are closed afterwards. *)
Lemma ex_main_completion :
  exists st',
    main ex_frozen_optimizer_step false false 2 ex_world ex_state = (Next, st') /\
    EvClose 0 ∈ trace st' /\ EvClose 1 ∈ trace st'.
Proof.
  destruct (training_loop_completes ex_frozen_optimizer_step false false
              (fun s => model s = ex_model /\ batches_count s = 0%Z /\
                        (exp_replay s = mkReplayStore 2 1 [] \/
                         exp_replay s = mkReplayStore 2 1 [ex_chain3; ex_chain3]))
              ex_world) with (n := ITERATIONS) (idx := 0%Z) (st := ex_state)
    as (st_loop & Hloop & _).
  - intros idx s (Hm & Hc & Hx).
    destruct (ex_iteration_runs_to_end idx s Hm Hc Hx) as (s' & Hit & Hm' & Hc' & Hx').
    exists s'. auto.
  - repeat split; auto.
  - exists (close_all 2 st_loop). rewrite main_unfold, Hloop. simpl fst. simpl snd.
    split; [reflexivity|]. rewrite close_all_trace.
    split; apply elem_of_app; right; simpl.
    + apply list_elem_of_here.
    + apply list_elem_of_further, list_elem_of_here.
Qed.

Lemma C10_zero_batches_raise_ZeroDivisionError_witness :
  batches_count ex_state = 0%Z /\
  training_loop ex_optimizer_step false false 0 0 ex_world_no_batch ex_state
    = (Next, ex_state) /\
  emitted (ex_world_no_batch (Z.of_nat 0)) = Ok (fun _ => ex_chain3) /\
  sample_batches 4 (fun n => n)
    (populate 2 (fun _ => ex_chain3) (exp_replay ex_state)) = Ok [] /\
  exists st',
    iteration ex_optimizer_step false false (ex_world_no_batch 0%Z) 0%Z ex_state
      = (Raised ZeroDivisionError, st') /\
    fst (main ex_optimizer_step false false 2 ex_world_no_batch ex_state)
      = Raised ZeroDivisionError.
Proof.
  split; [reflexivity|]. split; [reflexivity|]. split; [reflexivity|].
  split; [reflexivity|].
  destruct (C10_zero_batches_raise_ZeroDivisionError
              ex_optimizer_step false false ex_world_no_batch ex_state 0%nat
              ex_state (fun _ => ex_chain3) eq_refl eq_refl eq_refl eq_refl)
    as (st' & Hit & _ & Hmain).
  exists st'. split; [exact Hit|]. apply Hmain, ITERATIONS_pos.
Defined.

(** ** Further properties of batch_to_train *)

Section BatchToTrainMore.

Context {Obs : Type}.
Implicit Types (batch : Batch Obs) (exps : Chain Obs) (st : State Obs).

Lemma collect_states_empty_chain batch :
  [] ∈ batch -> collect_states batch = Raise IndexError.
Proof.
  induction batch as [|exps batch IH]; intros Hin.
  - apply not_elem_of_nil in Hin. contradiction.
  - simpl. destruct exps as [|e exps]; [reflexivity|].
    apply elem_of_cons in Hin as [Hin|Hin]; [discriminate|].
    unfold first_exp, getitem, last_exp. simpl.
    destruct (last (e :: exps)) as [eL|] eqn:Hlast;
      [|apply last_None in Hlast; discriminate].
    simpl. rewrite (IH Hin). reflexivity.
Qed.


(** X2: a batch that contains an empty chain makes [batch_to_train] raise
    [IndexError] at line 134, before any running sum is touched: the state
    is unchanged. *)
Theorem X2_empty_chain_raises_IndexError (ut ud : bool) batch st :
  [] ∈ batch ->
  batch_to_train ut ud batch st = (Raise IndexError, st).
Proof.
  intros Hin. unfold batch_to_train.
  rewrite (collect_states_empty_chain batch Hin). reflexivity.
Qed.

(** X3: [batch_to_train] never returns a result for the empty batch: the
    division by [len(batch)] of line 173 cannot succeed. *)
Theorem X3_empty_batch_never_returns (ut ud : bool) st :
  exists e st', batch_to_train ut ud [] st = (Raise e, st').
Proof.
  exists ZeroDivisionError. unfold batch_to_train. simpl collect_states. cbv zeta.
  destruct ut, ud; simpl; eauto.
Qed.

(** X4: the returned pair has one state and one target row per chain, and
    every target row has as many entries as the online network's output on
    the corresponding state. *)
Theorem X4_result_shape (ut ud : bool) batch st states q_vals st' :
  batch_to_train ut ud batch st = (Ok (states, q_vals), st') ->
  length states = length batch /\
  length q_vals = length batch /\
  forall idx row, q_vals !! idx = Some row ->
    exists s, states !! idx = Some s /\ length row = length (model st s).
Proof.
  intros H.
  destruct (batch_to_train_Ok _ _ _ _ _ _ _ H) as (vL & tr & sum & Hc & _ & Hb & _ & _).
  destruct (collect_states_Ok _ _ _ Hc) as [Hlen _].
  destruct (backup_loop_Ok _ _ _ _ _ _ _ Hb) as (Hlq & _ & _).
  rewrite length_map in Hlq.
  split; [exact Hlen|]. split; [congruence|].
  intros idx row Hrow.
  assert (Hidx : (idx < length batch)%nat).
  { apply lookup_lt_Some in Hrow. lia. }
  destruct (lookup_lt_is_Some_2 batch idx Hidx) as [exps Hexps].
  destruct (batch_to_train_row _ _ _ _ _ _ _ _ _ H Hexps)
    as (_ & _ & e0 & _ & seed & _ & _ & _ & _ & Hs & _ & _ & _ & Hq).
  exists (state e0). split; [exact Hs|].
  rewrite Hq in Hrow. injection Hrow as <-. apply length_insert.
Qed.

(** In the modes without action selection, the bootstrap value of a state
    is the largest entry of the evaluated network's output on it. *)
Lemma map_row_max_Ok (net : Net Obs) (vL : list Obs) (tr : list Q) idx (s : Obs) :
  map_outcome (fun s => '(v, _) ← row_max (net s); Ok v) vL = Ok tr ->
  vL !! idx = Some s ->
  exists v a,
    tr !! idx = Some v /\ net s !! a = Some v /\
    forall j q, net s !! j = Some q -> (q <= v)%Q.
Proof.
  intros H Hs.
  destruct (map_outcome_Ok _ _ _ H) as [_ Hall].
  destruct (Hall _ _ Hs) as (v & Hv & Hi).
  apply bind_Ok_inv in Hv as ([v' a] & Hmax & Hv). injection Hv as ->.
  destruct (row_max_spec _ _ _ Hmax) as [Hat Hle].
  exists v, a. auto.
Qed.

(** X5: in target-only mode (target flag set, double flag clear) the
    bootstrap value of every chain is the maximum over actions of the
    target network's output on the chain's last state. *)
Theorem X5_target_only_bootstrap_is_target_max
    st (vL_data : list Obs) total_rewards idx (s : Obs) :
  total_rewards_of true false st vL_data = Ok total_rewards ->
  vL_data !! idx = Some s ->
  exists v a,
    total_rewards !! idx = Some v /\
    target_net_model st s !! a = Some v /\
    forall j q, target_net_model st s !! j = Some q -> (q <= v)%Q.
Proof.
  unfold total_rewards_of. simpl. apply map_row_max_Ok.
Qed.

(** X6: with the target flag clear the bootstrap value of every chain is
    the maximum over actions of the online network's output on the chain's
    last state, whatever the double flag. *)
Theorem X6_plain_bootstrap_is_online_max
    (ud : bool) st (vL_data : list Obs) total_rewards idx (s : Obs) :
  total_rewards_of false ud st vL_data = Ok total_rewards ->
  vL_data !! idx = Some s ->
  exists v a,
    total_rewards !! idx = Some v /\
    model st s !! a = Some v /\
    forall j q, model st s !! j = Some q -> (q <= v)%Q.
Proof.
  unfold total_rewards_of. simpl. apply map_row_max_Ok.
Qed.

Lemma total_rewards_double_Ok st (vL : list Obs) (tr : list Q) idx (s : Obs) :
  total_rewards_of true true st vL = Ok tr ->
  vL !! idx = Some s ->
  exists vmax a v,
    row_max (model st s) = Ok (vmax, a) /\
    target_net_model st s !! a = Some v /\
    tr !! idx = Some v.
Proof.
  unfold total_rewards_of. simpl. intros H Hs.
  apply bind_Ok_inv in H as (actions & Hacts & H).
  destruct (map_outcome_Ok _ _ _ Hacts) as [_ Hall].
  destruct (Hall _ _ Hs) as (a & Ha & Hai).
  apply bind_Ok_inv in Ha as ([vmax a'] & Hmax & Ha). injection Ha as ->.
  assert (Hrow : map (target_net_model st) vL !! idx = Some (target_net_model st s))
    by (rewrite list_lookup_fmap, Hs; reflexivity).
  destruct (fancy_index_Ok _ _ _ H _ _ _ Hrow Hai) as (v & Hv & Hvi).
  exists vmax, a, v. auto.
Qed.

(** X7: on the same state and the same two networks, the double-mode
    bootstrap value never exceeds the target-only bootstrap value. *)
Theorem X7_double_bootstrap_at_most_target_only
    st (vL_data : list Obs) (double target_only : list Q) idx (d t : Q) :
  total_rewards_of true true st vL_data = Ok double ->
  total_rewards_of true false st vL_data = Ok target_only ->
  double !! idx = Some d ->
  target_only !! idx = Some t ->
  (d <= t)%Q.
Proof.
  intros HD HT Hd Ht.
  assert (Hidx : (idx < length vL_data)%nat).
  { unfold total_rewards_of in HT. simpl in HT.
    apply map_outcome_Ok in HT as [Hlen _]. apply lookup_lt_Some in Ht. lia. }
  destruct (lookup_lt_is_Some_2 vL_data idx Hidx) as [s Hs].
  destruct (total_rewards_double_Ok _ _ _ _ _ HD Hs) as (vmax & a & v & _ & Hv & Hdv).
  unfold total_rewards_of in HT. simpl in HT.
  destruct (map_row_max_Ok _ _ _ _ _ HT Hs) as (v' & a' & Htv & _ & Hle).
  assert (v = d) as -> by congruence. assert (v' = t) as -> by congruence.
  eapply Hle, Hv.
Qed.



(** X9: with the target flag clear, [batch_to_train] does not read
    [target_net.target_model]: replacing it changes neither the result nor
    the other variables. *)
Theorem X9_target_network_is_not_read_when_disabled
    (ud : bool) batch st (other : Net Obs) :
  batch_to_train false ud batch (set_target_net_model other st)
  = (fst (batch_to_train false ud batch st),
     set_target_net_model other (snd (batch_to_train false ud batch st))).
Proof.
  unfold batch_to_train.
  destruct (collect_states batch) as [[v0 vL]|e]; [|reflexivity].
  cbv zeta.
  change (model (set_target_net_model other st)) with (model st).
  match goal with
  | |- context [total_rewards_of false ud ?s1 vL] =>
      change (total_rewards_of false ud s1 vL) with (total_rewards_of false ud st vL)
  end.
  match goal with
  | |- context [total_rewards_of false ud ?s1 vL] =>
      change (total_rewards_of false ud s1 vL) with (total_rewards_of false ud st vL)
  end.
  destruct (_ ≫= _) as [[q0' s]|e]; [|reflexivity].
  destruct (py_div _ _); reflexivity.
Qed.

End BatchToTrainMore.

(** ** The arithmetic of the backup *)

Lemma GAMMA_nonneg : (0 <= GAMMA)%Q.
Proof.
  unfold GAMMA. lra.
Qed.

Lemma discounted_return_affine (rewards : list Q) (V : Q) :
  (discounted_return_spec rewards V
   == discounted_return_spec rewards 0 + GAMMA ^ Z.of_nat (length rewards) * V)%Q.
Proof.
  induction rewards as [|r rewards IH].
  - simpl. ring.
  - cbn [discounted_return_spec length]. rewrite IH, Qpower_succ_nat. ring.
Qed.

Lemma discounted_return_monotone (rewards : list Q) (V V' : Q) :
  (V <= V')%Q ->
  (discounted_return_spec rewards V <= discounted_return_spec rewards V')%Q.
Proof.
  intros H. induction rewards as [|r rewards IH]; simpl; [exact H|].
  pose proof GAMMA_nonneg. nra.
Qed.

Section Backup.

Context {Obs : Type}.
Implicit Types (batch : Batch Obs) (exps : Chain Obs) (st : State Obs).

(** X10: the backed-up total of a chain of length L is the discounted sum
    of its first L-1 rewards plus the seed discounted by GAMMA^(L-1). *)
Theorem X10_backup_is_rewards_plus_discounted_seed exps (seed : Q) :
  (backup exps seed
   == backup exps 0 + GAMMA ^ Z.of_nat (length exps - 1) * seed)%Q.
Proof.
  rewrite !backup_spec.
  rewrite (discounted_return_affine (map reward (removelast exps)) seed).
  rewrite length_map.
  assert (Hlen : length (removelast exps) = (length exps - 1)%nat).
  { rewrite removelast_firstn_len, length_take. lia. }
  rewrite Hlen. reflexivity.
Qed.

(** X11: the backed-up total grows with the seed: a larger bootstrap value
    never gives a smaller target. *)
Theorem X11_backup_is_monotone_in_the_seed exps (seed seed' : Q) :
  (seed <= seed')%Q ->
  (backup exps seed <= backup exps seed')%Q.
Proof.
  intros H. rewrite !backup_spec. apply discounted_return_monotone, H.
Qed.

Lemma backup_loop_sum batch :
  forall idx total_rewards q0 acc q0' acc',
  backup_loop idx batch total_rewards q0 acc = Ok (q0', acc') ->
  exists totals,
    length totals = length batch /\
    (acc' == acc + Qsum totals)%Q /\
    forall k exps e0, batch !! k = Some exps -> exps !! 0%nat = Some e0 ->
      exists row t, q0' !! (idx + k)%nat = Some row /\
                    row !! action e0 = Some t /\ totals !! k = Some t.
Proof.
  induction batch as [|c batch IH]; intros idx tr q0 acc q0' acc' H.
  - simpl in H. injection H as <- <-. exists []. split; [reflexivity|].
    split; [simpl; ring|]. intros k exps e0 Hk. rewrite lookup_nil in Hk. discriminate.
  - pose proof H as Hfull. simpl in H.
    apply bind_Ok_inv in H as (eL & HeL & H).
    apply bind_Ok_inv in H as (seed & Hseed & H).
    apply bind_Ok_inv in H as (e0 & He0 & H).
    apply bind_Ok_inv in H as (q1 & Hq1 & H).
    apply getitem_Ok in He0.
    apply tensor_setitem2_Ok in Hq1 as (_ & row & Hrow & Ha & ->).
    destruct (IH _ _ _ _ _ _ H) as (totals & Hlen & Hsum & Hrows).
    destruct (backup_loop_Ok _ _ _ _ _ _ _ H) as (_ & Hframe & _).
    exists (backup c seed :: totals). split; [simpl; lia|]. split.
    + rewrite Hsum. simpl. ring.
    + intros [|k] exps e0' Hk H0; simpl in Hk.
      * injection Hk as <-. assert (e0' = e0) as -> by congruence.
        exists (<[action e0 := backup c seed]> row), (backup c seed).
        rewrite Nat.add_0_r. split; [|split; [|reflexivity]].
        -- rewrite Hframe by lia. apply list_lookup_insert_eq.
           eapply lookup_lt_Some; eauto.
        -- apply list_lookup_insert_eq, Ha.
      * destruct (Hrows k exps e0' Hk H0) as (row' & t & Hr & Ht & Htot).
        exists row', t. replace (idx + S k)%nat with (S idx + k)%nat by lia. auto.
Qed.

(** X12: a returning call adds to [batches_sum_total_reward] the mean of
    the targets it has written at the taken actions, one per chain. *)
Theorem X12_running_target_sum_grows_by_the_mean_written_target
    (ut ud : bool) batch st states q_vals st' :
  batch_to_train ut ud batch st = (Ok (states, q_vals), st') ->
  exists totals,
    length totals = length batch /\
    (forall idx exps e0, batch !! idx = Some exps -> exps !! 0%nat = Some e0 ->
       exists row t, q_vals !! idx = Some row /\
                     row !! action e0 = Some t /\ totals !! idx = Some t) /\
    (batches_sum_total_reward st'
     == batches_sum_total_reward st
        + Qsum totals / inject_Z (Z.of_nat (length batch)))%Q.
Proof.
  intros H.
  destruct (batch_to_train_Ok _ _ _ _ _ _ _ H) as (vL & tr & sum & _ & _ & Hb & _ & ->).
  destruct (backup_loop_sum _ _ _ _ _ _ _ Hb) as (totals & Hlen & Hsum & Hrows).
  exists totals. split; [exact Hlen|]. split; [exact Hrows|].
  simpl. rewrite Hsum. rewrite Qplus_0_l. reflexivity.
Qed.

End Backup.

(** ** Further properties of the outer loop *)

Section LoopMore.

Context {Obs : Type}.
Variable optimizer_step : Net Obs -> list Obs -> list (list Q) -> outcome (Net Obs).
Variables use_target_dqn use_double_dqn : bool.
Implicit Types (st s : State Obs) (w : World Obs) (r : RunFile).

Local Abbreviation batch_loop := (batch_loop optimizer_step use_target_dqn use_double_dqn).
Local Abbreviation iteration := (iteration optimizer_step use_target_dqn use_double_dqn).
Local Abbreviation run_loop :=
  (training_loop optimizer_step use_target_dqn use_double_dqn).

Lemma decay_lr_lr r s :
  lr (decay_lr r s) =
  match lr_decay r with
  | Some d =>
      match lr_minimum r with
      | Some m => py_max (lr s * d)%Q m
      | None => (lr s * d)%Q
      end
  | None => lr s
  end.
Proof.
  unfold decay_lr. destruct (lr_decay r); [destruct (lr_minimum r)|]; reflexivity.
Qed.

Lemma decay_epsilon_lr r s : lr (decay_epsilon r s) = lr s.
Proof.
  unfold decay_epsilon. destruct (epsilon_minimum r); reflexivity.
Qed.

(** What an iteration that is not left by an exception does to the
    exploration rate, the learning rate and the running sums. *)
Lemma iteration_schedules w idx s fl s' :
  iteration w idx s = (fl, s') ->
  (forall e, fl <> Raised e) ->
  epsilon s' = epsilon (decay_epsilon (run w) s) /\
  lr s' = lr (decay_lr (run w) s) /\
  batches_count s' = 0%Z /\
  batches_sum_q0 s' = 0%Q /\
  batches_sum_total_reward s' = 0%Q.
Proof.
  intros Hit Hfl.
  destruct (iteration_not_raised _ _ _ _ _ _ _ _ Hit Hfl)
    as (emit & batches & st2 & st4 & _ & _ & Hbl & Hlog & Hend).
  destruct (iteration_body_effects _ _ _ _ _ _ _ _ Hbl Hlog) as (_ & He & _ & _ & _).
  destruct (batch_loop_frame _ _ _ _ _ _ _ Hbl) as (_ & _ & Hl & _).
  simpl in Hl.
  apply log_running_sums_Ok in Hlog as [_ Hst4].
  assert (Hlr : lr st4 = lr (decay_lr (run w) s)).
  { rewrite Hst4. simpl. rewrite !decay_lr_lr, decay_epsilon_lr, Hl. reflexivity. }
  assert (Hsums : batches_count st4 = 0%Z /\ batches_sum_q0 st4 = 0%Q /\
                  batches_sum_total_reward st4 = 0%Q)
    by (rewrite Hst4; simpl; auto).
  rewrite !decay_epsilon_epsilon in He. simpl in He.
  rewrite decay_epsilon_epsilon.
  destruct Hend as [(_ & _ & ->)|(_ & _ & b & _ & ->)]; [tauto|].
  destruct b; simpl; tauto.
Qed.

(** X13: with a floor configured, epsilon is at least the floor after
    every outer iteration that is not left by an exception, whatever the
    initial epsilon and the decay rate. *)
Theorem X13_epsilon_is_at_least_the_floor w idx s fl s' (f : Q) :
  iteration w idx s = (fl, s') ->
  (forall e, fl <> Raised e) ->
  epsilon_minimum (run w) = Some f ->
  (f <= epsilon s')%Q.
Proof.
  intros Hit Hfl Hf.
  destruct (iteration_schedules _ _ _ _ _ Hit Hfl) as (-> & _).
  rewrite decay_epsilon_epsilon, Hf.
  destruct (py_max_spec f (epsilon s * epsilon_decay (run w))) as [[H ->]|[H ->]]; lra.
Qed.

(** X14: without a floor, epsilon after [k] decay steps is the initial
    epsilon times the [k]-th power of the decay rate. *)
Theorem X14_epsilon_without_floor_is_geometric r st (k : nat) :
  epsilon_minimum r = None ->
  (epsilon (Nat.iter k (decay_epsilon r) st)
   == epsilon st * epsilon_decay r ^ Z.of_nat k)%Q.
Proof.
  intros Hf. induction k as [|k IH].
  - change (Nat.iter 0 (decay_epsilon r) st) with st.
    change (epsilon_decay r ^ Z.of_nat 0)%Q with 1%Q. ring.
  - rewrite Nat.iter_succ, decay_epsilon_epsilon, Hf, IH, Qpower_succ_nat. ring.
Qed.

(** X15: with both [lr_decay] and [lr_minimum] configured, the learning
    rate is at least the minimum after every outer iteration that is not
    left by an exception. *)
Theorem X15_learning_rate_is_at_least_the_minimum w idx s fl s' (d m : Q) :
  iteration w idx s = (fl, s') ->
  (forall e, fl <> Raised e) ->
  lr_decay (run w) = Some d ->
  lr_minimum (run w) = Some m ->
  (m <= lr s')%Q /\ lr s' = py_max (lr s * d)%Q m.
Proof.
  intros Hit Hfl Hd Hm.
  destruct (iteration_schedules _ _ _ _ _ Hit Hfl) as (_ & -> & _).
  rewrite decay_lr_lr, Hd, Hm. split; [|reflexivity].
  destruct (py_max_spec (lr s * d) m) as [[H ->]|[H ->]]; lra.
Qed.

(** X16: without [lr_decay] the learning rate is never changed, even
    when [lr_minimum] is configured and lies above it: the clamp of line
    213 is nested in the decay branch. *)
Theorem X16_lr_minimum_alone_has_no_effect w idx s fl s' :
  iteration w idx s = (fl, s') ->
  (forall e, fl <> Raised e) ->
  lr_decay (run w) = None ->
  lr s' = lr s.
Proof.
  intros Hit Hfl Hd.
  destruct (iteration_schedules _ _ _ _ _ Hit Hfl) as (_ & -> & _).
  rewrite decay_lr_lr, Hd. reflexivity.
Qed.

(** X17: the loop is left by the break only in an iteration whose index is
    a multiple of [REPORT_ITERS], with [stop.mean_reward] configured, a
    mean reward available and at least the bound; the target network is
    not synchronised in that iteration. *)
Theorem X17_break_only_on_report_iterations w idx s s' :
  iteration w idx s = (Break, s') ->
  (idx mod REPORT_ITERS = 0)%Z /\
  (exists bound m,
     stop_mean_reward (run w) = Some bound /\ mean_reward w = Some m /\
     (bound <= m)%Q) /\
  target_net_model s' = target_net_model s /\
  (forall i, EvSync i ∈ trace s' -> EvSync i ∈ trace s).
Proof.
  intros Hit.
  destruct (iteration_not_raised _ _ _ _ _ _ _ _ Hit)
    as (emit & batches & st2 & st4 & _ & _ & Hbl & Hlog & Hend); [discriminate|].
  destruct Hend as [(_ & Hrep & ->)|(Hc & _)]; [|discriminate].
  destruct (iteration_body_effects _ _ _ _ _ _ _ _ Hbl Hlog) as (Htr & _ & Ht & _ & _).
  unfold report_break in Hrep.
  destruct (Z.eqb_spec (idx mod REPORT_ITERS) 0) as [Hm|Hm]; [|discriminate].
  destruct (stop_mean_reward (run w)) as [bound|]; [|discriminate].
  destruct (mean_reward w) as [m|]; [|discriminate].
  apply Qle_bool_iff in Hrep.
  split; [exact Hm|]. split; [eauto|]. split; [exact Ht|].
  intros i Hin. rewrite Htr in Hin. simpl in Hin.
  apply elem_of_app in Hin as [Hin|Hin]; [exact Hin|].
  apply elem_of_app in Hin as [Hin|Hin].
  - apply elem_of_replicate in Hin as [Hin _]. discriminate.
  - apply list_elem_of_singleton in Hin. discriminate.
Qed.

(** X18: the checkpoint check never raises in iteration 0, where the test
    [idx > 0] short-circuits it; with [save_epoches = 0] it raises
    [ZeroDivisionError] in every later iteration, so that no iteration of
    index above 0 runs to its end. *)
Theorem X18_save_epoches_zero_stops_the_run w idx s fl s' :
  save_epoches (run w) = Some 0%Z ->
  iteration w idx s = (fl, s') ->
  (save_due (run w) 0%Z = Ok false) /\
  ((0 < idx)%Z -> save_due (run w) idx = Raise ZeroDivisionError /\ fl <> Next).
Proof.
  intros Hs Hit. split; [reflexivity|]. intros Hidx.
  assert (Hsave : save_due (run w) idx = Raise ZeroDivisionError).
  { unfold save_due. rewrite Hs.
    destruct (Z.ltb_spec 0 idx); [reflexivity | lia]. }
  split; [exact Hsave|]. intros ->.
  destruct (iteration_not_raised _ _ _ _ _ _ _ _ Hit)
    as (emit & batches & st2 & st4 & He & Hsm & Hbl & Hlog & Hend); [discriminate|].
  destruct Hend as [(Hc & _)|(_ & Hrep & _)]; [discriminate|].
  revert Hit. unfold iteration.
  rewrite He. cbv zeta. simpl exp_replay. rewrite Hsm, Hbl, Hlog, Hrep, Hsave.
  discriminate.
Qed.

(** X19: every outer iteration that is not left by an exception leaves the
    three running sums at zero, so that the means logged in an iteration
    are those of its own batches. *)
Theorem X19_running_sums_are_reset w idx s fl s' :
  iteration w idx s = (fl, s') ->
  (forall e, fl <> Raised e) ->
  batches_count s' = 0%Z /\
  batches_sum_q0 s' = 0%Q /\
  batches_sum_total_reward s' = 0%Q.
Proof.
  intros Hit Hfl. destruct (iteration_schedules _ _ _ _ _ Hit Hfl) as (_ & _ & H).
  exact H.
Qed.

(** X20: the loop ends with the first iteration that breaks or raises:
    its outcome and state are those of the loop, whatever the remaining
    range and whatever the collaborators would have delivered later. *)
Theorem X20_loop_ends_at_first_break_or_raise
    (k n : nat) world world' st st_k fl st' :
  run_loop k 0 world st = (Next, st_k) ->
  iteration (world (Z.of_nat k)) (Z.of_nat k) st_k = (fl, st') ->
  fl <> Next ->
  (k < n)%nat ->
  (forall i, (i <= Z.of_nat k)%Z -> world' i = world i) ->
  run_loop n 0 world st = (fl, st') /\
  run_loop n 0 world' st = (fl, st').
Proof.
  intros Hk Hit Hfl Hlt Hsame.
  assert (Hgen : forall wd, (forall i, (i <= Z.of_nat k)%Z -> wd i = world i) ->
                 run_loop n 0 wd st = (fl, st')).
  { intros wd Hwd.
    assert (Hpre : forall j idx s0, (idx + Z.of_nat j <= Z.of_nat k)%Z ->
                     (0 <= idx)%Z ->
                     run_loop j idx wd s0 = run_loop j idx world s0).
    { induction j as [|j IHj]; intros idx s0 Hb Hi; [reflexivity|].
      cbn [training_loop]. rewrite Hwd by lia.
      destruct (iteration (world idx) idx s0) as [[| |e] s1];
        try reflexivity.
      apply IHj; lia. }
    replace n with (k + S (n - S k))%nat by lia.
    rewrite training_loop_app, Hpre, Hk by lia.
    rewrite Z.add_0_l. cbn [training_loop]. rewrite Hwd by lia. rewrite Hit.
    destruct fl; [congruence | reflexivity | reflexivity]. }
  split; apply Hgen; auto.
Qed.

Lemma iter_decay_epsilon_ext r (n : nat) s1 s2 :
  epsilon s1 = epsilon s2 ->
  epsilon (Nat.iter n (decay_epsilon r) s1) = epsilon (Nat.iter n (decay_epsilon r) s2).
Proof.
  intros H. induction n as [|n IH]; [exact H|].
  rewrite !Nat.iter_succ, !decay_epsilon_epsilon, IH. reflexivity.
Qed.

(** X21: when the run file is not changed during the run, epsilon after
    [n] outer iterations that ran to their end is the [n]-fold decay of
    the initial epsilon. *)
Theorem X21_epsilon_after_n_iterations r (n : nat) :
  forall idx world st st',
  (forall i, run (world i) = r) ->
  run_loop n idx world st = (Next, st') ->
  epsilon st' = epsilon (Nat.iter n (decay_epsilon r) st).
Proof.
  induction n as [|n IH]; intros idx world st st' Hr Hloop.
  - simpl in Hloop. injection Hloop as <-. reflexivity.
  - cbn [training_loop] in Hloop.
    destruct (iteration (world idx) idx st) as [[| |e] s1] eqn:Hit;
      try discriminate.
    rewrite (IH _ _ _ _ Hr Hloop), Nat.iter_succ_r.
    apply iter_decay_epsilon_ext.
    destruct (iteration_schedules _ _ _ _ _ Hit) as (He & _); [discriminate|].
    rewrite He, Hr. reflexivity.
Qed.

End LoopMore.

(** ** The shapes of the network *)

(** The quotient and the remainder of every division by 3 in sight. *)
Ltac div3_facts :=
  repeat match goal with
  | |- context [(?a / 3)%nat] =>
      lazymatch goal with
      | _ : a = (3 * (a / 3) + a mod 3)%nat |- _ => fail
      | _ => pose proof (Nat.div_mod_eq a 3);
             pose proof (Nat.mod_upper_bound a 3 ltac:(lia))
      end
  | _ : context [(?a / 3)%nat] |- _ =>
      lazymatch goal with
      | _ : a = (3 * (a / 3) + a mod 3)%nat |- _ => fail
      | _ => pose proof (Nat.div_mod_eq a 3);
             pose proof (Nat.mod_upper_bound a 3 ltac:(lia))
      end
  end.

(** The convolution stack of the script accepts the images with the
    expected number of channels that are at least 46 pixels high and wide. *)
Lemma forward_conv_shape (b c c' h w : nat) :
  _forward_conv (mkConv2d c 32 5) (mkConv2d 32 32 3) (mkConv2d 32 64 2)
    (mkShape4 b c' h w)
  = if ((c' =? c) && (46 <=? h) && (46 <=? w))%nat
    then Ok (mkShape4 b 64 (conv_stack_dim h) (conv_stack_dim w))
    else Raise RuntimeError.
Proof.
  unfold _forward_conv, conv2d, max_pool2d, relu, conv_stack_dim.
  cbn [sh_channels sh_height sh_width sh_batch in_channels out_channels kernel_size].
  destruct (Nat.eqb_spec c' c) as [->|Hc]; [|reflexivity]. cbn [negb andb].
  destruct (Nat.leb_spec 46 h) as [Hh|Hh]; destruct (Nat.leb_spec 46 w) as [Hw|Hw];
    cbn [andb].
  all: repeat match goal with
    | |- context [(?a <? ?b)%nat] => destruct (Nat.ltb_spec a b)
    | _ => progress cbn [orb mbind outcome_bind sh_channels sh_height sh_width
                         sh_batch Nat.eqb negb]
    end.
  all: try reflexivity.
  all: exfalso; div3_facts; lia.
Qed.

Lemma conv_stack_dim_pos (x : nat) : (46 <= x)%nat -> (1 <= conv_stack_dim x)%nat.
Proof.
  intros H. unfold conv_stack_dim. lia.
Qed.

Lemma Net_init_shape (n_actions c h w : nat) :
  Net_init n_actions (c, h, w)
  = if ((46 <=? h) && (46 <=? w))%nat
    then Ok (mkNetModule (mkConv2d c 32 5) (mkConv2d 32 32 3) (mkConv2d 32 64 2)
               (mkLinear (64 * conv_stack_dim h * conv_stack_dim w) 256)
               (mkLinear 256 256) (mkLinear 256 n_actions))
    else Raise RuntimeError.
Proof.
  unfold Net_init, _get_conv_output. cbn [fst].
  rewrite forward_conv_shape, Nat.eqb_refl. cbn [andb].
  destruct ((46 <=? h) && (46 <=? w))%nat; reflexivity.
Qed.

(** X22: for at least one channel and one action, the network can be
    built exactly for images at least 46 pixels high and wide; the first
    linear layer then takes 64 features per position of the convolution
    output, of which there is at least one.  Smaller images make
    [Net.__init__] raise. *)
Theorem X22_network_needs_images_of_46_pixels (n_actions c h w : nat) :
  ((0 < n_actions)%nat /\ (0 < c)%nat /\ (46 <= h)%nat /\ (46 <= w)%nat ->
   exists net,
     Net_init n_actions (c, h, w) = Ok net /\
     in_channels (conv1 net) = c /\
     in_features (fc1 net) = (64 * conv_stack_dim h * conv_stack_dim w)%nat /\
     (64 <= in_features (fc1 net))%nat /\
     out_features (fc3 net) = n_actions) /\
  (~ ((46 <= h)%nat /\ (46 <= w)%nat) ->
   Net_init n_actions (c, h, w) = Raise RuntimeError).
Proof.
  rewrite Net_init_shape. split.
  - intros (_ & _ & Hh & Hw).
    destruct (Nat.leb_spec 46 h); [|lia]. destruct (Nat.leb_spec 46 w); [|lia].
    eexists. split; [reflexivity|]. cbn.
    pose proof (conv_stack_dim_pos h Hh). pose proof (conv_stack_dim_pos w Hw).
    repeat split; auto. nia.
  - intros Hn.
    destruct (Nat.leb_spec 46 h); destruct (Nat.leb_spec 46 w); cbn [andb];
      try reflexivity. lia.
Qed.

(** X23: a network built for images of shape (c, h, w) maps every
    non-empty batch of such images to one row of [n_actions] values per
    image; it accepts
    a batch of other images exactly when they have [c] channels, are at
    least 46 pixels high and wide and give as many convolution features,
    and raises otherwise. *)
Theorem X23_forward_shape (n_actions c h w : nat) net (B c' h' w' : nat) :
  Net_init n_actions (c, h, w) = Ok net ->
  (0 < n_actions)%nat ->
  (0 < c)%nat ->
  (0 < B)%nat ->
  forward net (mkShape4 B c h w) = Ok (B, n_actions) /\
  (forward net (mkShape4 B c' h' w') = Ok (B, n_actions) <->
   c' = c /\ (46 <= h')%nat /\ (46 <= w')%nat /\
   (conv_stack_dim h' * conv_stack_dim w' = conv_stack_dim h * conv_stack_dim w)%nat) /\
  (forward net (mkShape4 B c' h' w') = Ok (B, n_actions) \/
   forward net (mkShape4 B c' h' w') = Raise RuntimeError).
Proof.
  intros Hinit _ _ HB. rewrite Net_init_shape in Hinit.
  destruct (Nat.leb_spec 46 h) as [Hh|]; [|discriminate].
  destruct (Nat.leb_spec 46 w) as [Hw|]; [|discriminate].
  cbn [andb] in Hinit. apply Ok_inj in Hinit. subst net.
  assert (Hfw : forall c0 h0 w0,
            forward (mkNetModule (mkConv2d c 32 5) (mkConv2d 32 32 3) (mkConv2d 32 64 2)
                       (mkLinear (64 * conv_stack_dim h * conv_stack_dim w) 256)
                       (mkLinear 256 256) (mkLinear 256 n_actions))
                    (mkShape4 B c0 h0 w0)
            = if ((c0 =? c) && (46 <=? h0) && (46 <=? w0)
                  && (64 * conv_stack_dim h0 * conv_stack_dim w0
                      =? 64 * conv_stack_dim h * conv_stack_dim w))%nat
              then Ok (B, n_actions) else Raise RuntimeError).
  { intros c0 h0 w0. unfold forward. cbn [conv1 conv2 conv3 fc1 fc2 fc3].
    rewrite forward_conv_shape.
    destruct ((c0 =? c) && (46 <=? h0) && (46 <=? w0))%nat; [|reflexivity].
    cbn [andb mbind outcome_bind sh_batch sh_channels sh_height sh_width].
    unfold linear, relu. cbn [fst snd in_features out_features].
    destruct (64 * conv_stack_dim h0 * conv_stack_dim w0
              =? 64 * conv_stack_dim h * conv_stack_dim w)%nat; reflexivity. }
  rewrite !Hfw. split; [|split].
  - rewrite Nat.eqb_refl. destruct (Nat.leb_spec 46 h); [|lia].
    destruct (Nat.leb_spec 46 w); [|lia]. cbn [andb].
    rewrite Nat.eqb_refl. reflexivity.
  - destruct (Nat.eqb_spec c' c) as [->|Hc];
    destruct (Nat.leb_spec 46 h'); destruct (Nat.leb_spec 46 w'); cbn [andb];
    try (split; [discriminate | intros (? & ? & ? & ?); lia]).
    destruct (Nat.eqb_spec (64 * conv_stack_dim h' * conv_stack_dim w')
                (64 * conv_stack_dim h * conv_stack_dim w)) as [He|He].
    + split; [intros _; repeat split; auto; lia | reflexivity].
    + split; [discriminate | intros (_ & _ & _ & Hd); exfalso; apply He; lia].
  - destruct (_ && _)%nat; auto.
Qed.

(** ** The further properties on concrete inputs *)




(** A non-terminal chain of a single transition: the value of line 171 is
    the [numpy.float32] read at line 168, and the assignment raises. *)
Lemma ex_batch_to_train_numpy_scalar (ut ud : bool) :
  fst (batch_to_train ut ud [[mkExperience 0%nat 1%nat 1%Q false]; ex_terminal_chain]
         ex_state) = Raise TypeError.
Proof.
  destruct ut, ud; vm_compute; reflexivity.
Qed.

(** A batch of one non-terminal chain: outside the double mode the array of
    bootstrap values is 0-dimensional and line 168 raises; in the double
    mode the call returns. *)
Lemma ex_batch_to_train_single_chain :
  fst (batch_to_train false false [ex_chain3] ex_state) = Raise IndexError /\
  fst (batch_to_train true false [ex_chain3] ex_state) = Raise IndexError /\
  fst (batch_to_train true true [ex_chain3] ex_state)
    = Ok ([0%nat], [[1; discounted_return_spec [1; 2] 4; 2]%Q]).
Proof.
  repeat split; vm_compute; reflexivity.
Qed.


Lemma X2_empty_chain_raises_IndexError_witness :
  [] ∈ [ex_chain3; []] /\
  batch_to_train false false [ex_chain3; []] ex_state = (Raise IndexError, ex_state).
Proof.
  assert (Hin : [] ∈ [ex_chain3; []])
    by apply list_elem_of_further, list_elem_of_here.
  split; [exact Hin|].
  exact (X2_empty_chain_raises_IndexError false false [ex_chain3; []] ex_state Hin).
Defined.

Lemma ex_batch_to_train_plain :
  batch_to_train false false ex_batch ex_state
  = (Ok ([0%nat; 0%nat],
         [[1; discounted_return_spec [1; 2] 6; 2]; [1; 0; 2]]%Q),
     snd (batch_to_train false false ex_batch ex_state)).
Proof.
  vm_compute. reflexivity.
Defined.

Lemma X4_result_shape_witness :
  batch_to_train false false ex_batch ex_state
  = (Ok ([0%nat; 0%nat],
         [[1; discounted_return_spec [1; 2] 6; 2]; [1; 0; 2]]%Q),
     snd (batch_to_train false false ex_batch ex_state)) /\
  length [0%nat; 0%nat] = length ex_batch /\
  length [[1; discounted_return_spec [1; 2] 6; 2]; [1; 0; 2]]%Q = length ex_batch.
Proof.
  split; [exact ex_batch_to_train_plain|].
  destruct (X4_result_shape false false ex_batch ex_state _ _ _ ex_batch_to_train_plain)
    as (H1 & H2 & _).
  auto.
Defined.

Lemma X5_target_only_bootstrap_is_target_max_witness :
  total_rewards_of true false ex_state [0%nat; 1%nat; 2%nat] = Ok [9; 8; 5]%Q /\
  [0%nat; 1%nat; 2%nat] !! 1%nat = Some 1%nat /\
  exists v a,
    [9; 8; 5]%Q !! 1%nat = Some v /\
    target_net_model ex_state 1%nat !! a = Some v /\
    forall j q, target_net_model ex_state 1%nat !! j = Some q -> (q <= v)%Q.
Proof.
  split; [reflexivity|]. split; [reflexivity|].
  exact (X5_target_only_bootstrap_is_target_max ex_state [0%nat; 1%nat; 2%nat]
           [9; 8; 5]%Q 1%nat 1%nat eq_refl eq_refl).
Defined.

Lemma X6_plain_bootstrap_is_online_max_witness :
  total_rewards_of false true ex_state [0%nat; 1%nat; 2%nat] = Ok [3; 5; 6]%Q /\
  [0%nat; 1%nat; 2%nat] !! 2%nat = Some 2%nat /\
  exists v a,
    [3; 5; 6]%Q !! 2%nat = Some v /\
    model ex_state 2%nat !! a = Some v /\
    forall j q, model ex_state 2%nat !! j = Some q -> (q <= v)%Q.
Proof.
  split; [reflexivity|]. split; [reflexivity|].
  exact (X6_plain_bootstrap_is_online_max true ex_state [0%nat; 1%nat; 2%nat]
           [3; 5; 6]%Q 2%nat 2%nat eq_refl eq_refl).
Defined.

Lemma X7_double_bootstrap_at_most_target_only_witness :
  total_rewards_of true true ex_state [0%nat; 1%nat; 2%nat] = Ok [1; 8; 4]%Q /\
  total_rewards_of true false ex_state [0%nat; 1%nat; 2%nat] = Ok [9; 8; 5]%Q /\
  (1 <= 9)%Q.
Proof.
  split; [reflexivity|]. split; [reflexivity|].
  exact (X7_double_bootstrap_at_most_target_only ex_state [0%nat; 1%nat; 2%nat]
           [1; 8; 4]%Q [9; 8; 5]%Q 0%nat 1%Q 9%Q eq_refl eq_refl eq_refl eq_refl).
Defined.


Lemma X11_backup_is_monotone_in_the_seed_witness :
  (4 <= 6)%Q /\ (backup ex_chain3 4 <= backup ex_chain3 6)%Q.
Proof.
  assert (H : (4 <= 6)%Q) by prove_Qle.
  split; [exact H|].
  exact (X11_backup_is_monotone_in_the_seed ex_chain3 4%Q 6%Q H).
Defined.

Lemma X12_running_target_sum_grows_by_the_mean_written_target_witness :
  batch_to_train false false ex_batch ex_state
  = (Ok ([0%nat; 0%nat],
         [[1; discounted_return_spec [1; 2] 6; 2]; [1; 0; 2]]%Q),
     snd (batch_to_train false false ex_batch ex_state)) /\
  exists totals,
    length totals = length ex_batch /\
    (batches_sum_total_reward (snd (batch_to_train false false ex_batch ex_state))
     == batches_sum_total_reward ex_state
        + Qsum totals / inject_Z (Z.of_nat (length ex_batch)))%Q.
Proof.
  split; [exact ex_batch_to_train_plain|].
  destruct (X12_running_target_sum_grows_by_the_mean_written_target
              false false ex_batch ex_state _ _ _ ex_batch_to_train_plain)
    as (totals & Hlen & _ & Hsum).
  exists totals. auto.
Defined.

Lemma ex_iteration_0 :
  iteration ex_optimizer_step true true (ex_world 0%Z) 0%Z ex_state
  = (Next, snd (iteration ex_optimizer_step true true (ex_world 0%Z) 0%Z ex_state)).
Proof.
  vm_compute. reflexivity.
Defined.

Lemma Next_not_Raised (e : exn) : Next <> Raised e.
Proof.
  discriminate.
Qed.

Lemma X13_epsilon_is_at_least_the_floor_witness :
  iteration ex_optimizer_step true true (ex_world 0%Z) 0%Z ex_state
  = (Next, snd (iteration ex_optimizer_step true true (ex_world 0%Z) 0%Z ex_state)) /\
  epsilon_minimum (run (ex_world 0%Z)) = Some (1 # 10)%Q /\
  ((1 # 10)
   <= epsilon (snd (iteration ex_optimizer_step true true (ex_world 0%Z) 0%Z ex_state)))%Q.
Proof.
  split; [exact ex_iteration_0|]. split; [reflexivity|].
  exact (X13_epsilon_is_at_least_the_floor ex_optimizer_step true true
           (ex_world 0%Z) 0%Z ex_state Next _ (1 # 10)%Q
           ex_iteration_0 Next_not_Raised eq_refl).
Defined.

Lemma X14_epsilon_without_floor_is_geometric_witness :
  epsilon_minimum ex_run_no_floor = None /\
  (epsilon (Nat.iter 3 (decay_epsilon ex_run_no_floor) ex_state)
   == epsilon ex_state * epsilon_decay ex_run_no_floor ^ Z.of_nat 3)%Q.
Proof.
  split; [reflexivity|].
  exact (X14_epsilon_without_floor_is_geometric ex_run_no_floor ex_state 3 eq_refl).
Defined.

Lemma ex_iteration_lr :
  iteration ex_optimizer_step false false (ex_world_lr 0%Z) 0%Z ex_state
  = (Next, snd (iteration ex_optimizer_step false false (ex_world_lr 0%Z) 0%Z ex_state)).
Proof.
  vm_compute. reflexivity.
Defined.

Lemma X15_learning_rate_is_at_least_the_minimum_witness :
  iteration ex_optimizer_step false false (ex_world_lr 0%Z) 0%Z ex_state
  = (Next, snd (iteration ex_optimizer_step false false (ex_world_lr 0%Z) 0%Z ex_state)) /\
  lr_decay (run (ex_world_lr 0%Z)) = Some (1 # 2)%Q /\
  lr_minimum (run (ex_world_lr 0%Z)) = Some (1 # 1500)%Q /\
  ((1 # 1500)
   <= lr (snd (iteration ex_optimizer_step false false (ex_world_lr 0%Z) 0%Z ex_state)))%Q.
Proof.
  split; [exact ex_iteration_lr|]. split; [reflexivity|]. split; [reflexivity|].
  destruct (X15_learning_rate_is_at_least_the_minimum ex_optimizer_step false false
              (ex_world_lr 0%Z) 0%Z ex_state Next _ (1 # 2)%Q (1 # 1500)%Q
              ex_iteration_lr Next_not_Raised eq_refl eq_refl) as [H _].
  exact H.
Defined.

Lemma X16_lr_minimum_alone_has_no_effect_witness :
  iteration ex_optimizer_step true true (ex_world 0%Z) 0%Z ex_state
  = (Next, snd (iteration ex_optimizer_step true true (ex_world 0%Z) 0%Z ex_state)) /\
  lr_decay (run (ex_world 0%Z)) = None /\
  lr (snd (iteration ex_optimizer_step true true (ex_world 0%Z) 0%Z ex_state))
  = lr ex_state.
Proof.
  split; [exact ex_iteration_0|]. split; [reflexivity|].
  exact (X16_lr_minimum_alone_has_no_effect ex_optimizer_step true true
           (ex_world 0%Z) 0%Z ex_state Next _
           ex_iteration_0 Next_not_Raised eq_refl).
Defined.

Lemma ex_iteration_break :
  iteration ex_optimizer_step true true (ex_world_break 0%Z) 0%Z ex_state
  = (Break,
     snd (iteration ex_optimizer_step true true (ex_world_break 0%Z) 0%Z ex_state)).
Proof.
  vm_compute. reflexivity.
Defined.

Lemma X17_break_only_on_report_iterations_witness :
  iteration ex_optimizer_step true true (ex_world_break 0%Z) 0%Z ex_state
  = (Break,
     snd (iteration ex_optimizer_step true true (ex_world_break 0%Z) 0%Z ex_state)) /\
  (0 mod REPORT_ITERS = 0)%Z /\
  exists bound m,
    stop_mean_reward (run (ex_world_break 0%Z)) = Some bound /\
    mean_reward (ex_world_break 0%Z) = Some m /\ (bound <= m)%Q.
Proof.
  split; [exact ex_iteration_break|].
  destruct (X17_break_only_on_report_iterations ex_optimizer_step true true
              (ex_world_break 0%Z) 0%Z ex_state _ ex_iteration_break)
    as (H1 & H2 & _).
  auto.
Defined.

Lemma ex_iteration_save0 :
  iteration ex_optimizer_step false false (ex_world_save0 1%Z) 1%Z ex_state
  = (Raised ZeroDivisionError,
     snd (iteration ex_optimizer_step false false (ex_world_save0 1%Z) 1%Z ex_state)).
Proof.
  vm_compute. reflexivity.
Defined.

Lemma X18_save_epoches_zero_stops_the_run_witness :
  save_epoches (run (ex_world_save0 1%Z)) = Some 0%Z /\
  iteration ex_optimizer_step false false (ex_world_save0 1%Z) 1%Z ex_state
  = (Raised ZeroDivisionError,
     snd (iteration ex_optimizer_step false false (ex_world_save0 1%Z) 1%Z ex_state)) /\
  save_due (run (ex_world_save0 1%Z)) 0%Z = Ok false /\
  save_due (run (ex_world_save0 1%Z)) 1%Z = Raise ZeroDivisionError.
Proof.
  split; [reflexivity|]. split; [exact ex_iteration_save0|].
  destruct (X18_save_epoches_zero_stops_the_run ex_optimizer_step false false
              (ex_world_save0 1%Z) 1%Z ex_state _ _ eq_refl ex_iteration_save0)
    as (H0 & H1).
  split; [exact H0|]. apply H1. reflexivity.
Defined.

Lemma X19_running_sums_are_reset_witness :
  iteration ex_optimizer_step true true (ex_world 0%Z) 0%Z ex_state
  = (Next, snd (iteration ex_optimizer_step true true (ex_world 0%Z) 0%Z ex_state)) /\
  batches_count (snd (iteration ex_optimizer_step true true (ex_world 0%Z) 0%Z ex_state))
  = 0%Z.
Proof.
  split; [exact ex_iteration_0|].
  destruct (X19_running_sums_are_reset ex_optimizer_step true true
              (ex_world 0%Z) 0%Z ex_state Next _ ex_iteration_0 Next_not_Raised)
    as (H & _).
  exact H.
Defined.

Lemma X20_loop_ends_at_first_break_or_raise_witness :
  training_loop ex_optimizer_step true true 0 0 ex_world_break ex_state
  = (Next, ex_state) /\
  Break <> Next /\
  (0 < 5)%nat /\
  training_loop ex_optimizer_step true true 5 0
    (fun i => if (i <=? 0)%Z then ex_world_break i else ex_world_env_failure i) ex_state
  = (Break,
     snd (iteration ex_optimizer_step true true (ex_world_break 0%Z) 0%Z ex_state)).
Proof.
  assert (Hne : Break <> Next) by discriminate.
  assert (Hlt : (0 < 5)%nat) by lia.
  split; [reflexivity|]. split; [exact Hne|]. split; [exact Hlt|].
  destruct (X20_loop_ends_at_first_break_or_raise ex_optimizer_step true true
              0 5 ex_world_break
              (fun i => if (i <=? 0)%Z then ex_world_break i else ex_world_env_failure i)
              ex_state ex_state Break _ eq_refl ex_iteration_break Hne Hlt) as [_ H].
  - intros i Hi. destruct (Z.leb_spec i 0); [reflexivity | simpl in Hi; lia].
  - exact H.
Defined.

Lemma ex_two_iterations :
  training_loop ex_optimizer_step true true 2 0 ex_world ex_state
  = (Next, snd (training_loop ex_optimizer_step true true 2 0 ex_world ex_state)).
Proof.
  vm_compute. reflexivity.
Defined.

Lemma X21_epsilon_after_n_iterations_witness :
  (forall i, run (ex_world i) = ex_run) /\
  training_loop ex_optimizer_step true true 2 0 ex_world ex_state
  = (Next, snd (training_loop ex_optimizer_step true true 2 0 ex_world ex_state)) /\
  epsilon (snd (training_loop ex_optimizer_step true true 2 0 ex_world ex_state))
  = epsilon (Nat.iter 2 (decay_epsilon ex_run) ex_state).
Proof.
  assert (Hr : forall i, run (ex_world i) = ex_run) by reflexivity.
  split; [exact Hr|]. split; [exact ex_two_iterations|].
  exact (X21_epsilon_after_n_iterations ex_optimizer_step true true ex_run 2
           0%Z ex_world ex_state _ Hr ex_two_iterations).
Defined.

(** The default configuration of the script: one grayscale frame of 80 by
    80 pixels gives 256 convolution features. *)
Lemma ex_default_network :
  Net_init 3 (input_shape true 1 80 80)
  = Ok (mkNetModule (mkConv2d 1 32 5) (mkConv2d 32 32 3) (mkConv2d 32 64 2)
          (mkLinear 256 256) (mkLinear 256 256) (mkLinear 256 3)).
Proof.
  reflexivity.
Defined.

Lemma X23_forward_shape_witness :
  Net_init 3 (1, 80, 80)%nat
  = Ok (mkNetModule (mkConv2d 1 32 5) (mkConv2d 32 32 3) (mkConv2d 32 64 2)
          (mkLinear 256 256) (mkLinear 256 256) (mkLinear 256 3)) /\
  (0 < 3)%nat /\ (0 < 1)%nat /\ (0 < 32)%nat /\
  forward (mkNetModule (mkConv2d 1 32 5) (mkConv2d 32 32 3) (mkConv2d 32 64 2)
             (mkLinear 256 256) (mkLinear 256 256) (mkLinear 256 3))
    (mkShape4 32 1 80 80) = Ok (32, 3)%nat.
Proof.
  assert (HB : (0 < 32)%nat) by lia.
  assert (Hn : (0 < 3)%nat) by lia.
  assert (Hc : (0 < 1)%nat) by lia.
  split; [exact ex_default_network|]. split; [exact Hn|]. split; [exact Hc|].
  split; [exact HB|].
  destruct (X23_forward_shape 3 1 80 80 _ 32 1 80 80 ex_default_network Hn Hc HB)
    as [H _].
  exact H.
Defined.

Lemma X22_network_needs_images_of_46_pixels_witness :
  ((0 < 3)%nat /\ (0 < 1)%nat /\ (46 <= 80)%nat /\ (46 <= 80)%nat) /\
  (exists net,
     Net_init 3 (1, 80, 80)%nat = Ok net /\
     in_features (fc1 net) = 256%nat) /\
  Net_init 3 (1, 45, 80)%nat = Raise RuntimeError.
Proof.
  assert (H : (0 < 3)%nat /\ (0 < 1)%nat /\ (46 <= 80)%nat /\ (46 <= 80)%nat) by lia.
  destruct (X22_network_needs_images_of_46_pixels 3 1 80 80) as [Hok _].
  destruct (X22_network_needs_images_of_46_pixels 3 1 45 80) as [_ Hsmall].
  split; [exact H|]. split.
  - destruct (Hok H) as (net & Hnet & _ & Hf & _). exists net. split; [exact Hnet|].
    rewrite Hf. reflexivity.
  - apply Hsmall. lia.
Defined.
